(** * users/views.py of the StackOverFlow clone: account management views

    A shallow embedding of the request handlers of
    [stackoverflow_clone/users/views.py] and the properties of the account
    lifecycle they implement.  The handlers are sequential
    validate-then-persist flows over a database, a token library, an
    on-commit task queue and an object store; the embedding threads an
    explicit [World] through a small state-and-exception monad. *)

From Stdlib Require Import ZArith String List Lia.
From stdpp Require Import base option gmap strings list.

Local Open Scope string_scope.
Local Open Scope list_scope.
Local Open Scope Z_scope.

(** ** Data model *)

(** A row of the [Profile] table; [avatar] is the stored file name of the
    image field, the empty string when no file is attached (a Django
    [FieldFile] is truthy exactly when its name is non-empty). *)
Record Profile := mkProfile {
  avatar : string;
  bio : string
}.

(** A row of the [User] table. *)
Record User := mkUser {
  id : Z;
  username : string;
  email : string;
  password : string;
  is_active : bool;
  is_admin : bool;
  is_superuser : bool;
  last_login : option Z
}.

Definition set_is_active (b : bool) (u : User) : User :=
  mkUser (id u) (username u) (email u) (password u) b
         (is_admin u) (is_superuser u) (last_login u).

Definition set_password_hash (h : string) (u : User) : User :=
  mkUser (id u) (username u) (email u) h (is_active u)
         (is_admin u) (is_superuser u) (last_login u).

Definition set_username (s : string) (u : User) : User :=
  mkUser (id u) s (email u) (password u) (is_active u)
         (is_admin u) (is_superuser u) (last_login u).

Definition set_email (s : string) (u : User) : User :=
  mkUser (id u) (username u) s (password u) (is_active u)
         (is_admin u) (is_superuser u) (last_login u).

(** The claims of a decoded JSON web token.  [token_type] is simplejwt's
    type claim (["refresh"] for refresh tokens), [purpose] the purpose tag
    of the specification's data model, [exp] the expiry instant. *)
Record TokenPayload := mkPayload {
  token_type : string;
  purpose : string;
  user_id : Z;
  jti : string;
  exp : Z
}.

(** The arguments of one [send_verification_email] task:
    [(email, user_id, action, subject)]. *)
Record Task := mkTask {
  task_email : string;
  task_user_id : Z;
  task_action : string;
  task_subject : string
}.

(** Writes that leave the process, in program order. *)
Inductive Effect :=
| DbSave (u : User)             (* Model.save() *)
| DbDelete (pk : Z)             (* Model.delete(), cascading to the profile *)
| BucketDelete (key : string).  (* Bucket().delete_object(key) *)

(** JSON values carried by request and response bodies. *)
#[warnings="-register-all"]
Inductive Json :=
| JStr (s : string)
| JObj (fields : list (string * Json)).

(** [rest_framework.response.Response(data=..., status=...)]. *)
Record Response := mkResponse {
  data : option Json;
  status : Z
}.

Definition HTTP_200_OK : Z := 200.
Definition HTTP_201_CREATED : Z := 201.
Definition HTTP_202_ACCEPTED : Z := 202.
Definition HTTP_204_NO_CONTENT : Z := 204.
Definition HTTP_400_BAD_REQUEST : Z := 400.
Definition HTTP_401_UNAUTHORIZED : Z := 401.
Definition HTTP_403_FORBIDDEN : Z := 403.
Definition HTTP_404_NOT_FOUND : Z := 404.
Definition HTTP_409_CONFLICT : Z := 409.

(** Everything a handler can read or write. *)
Record World := mkWorld {
  users : gmap Z User;             (* the User table, by primary key *)
  profiles : gmap Z Profile;       (* the Profile table, by owning user *)
  blacklisted : gset string;       (* jti of the blacklisted refresh tokens *)
  in_atomic_block : bool;          (* a database transaction is open *)
  run_on_commit : list Task;       (* hooks registered with that transaction *)
  broker : list Task;              (* tasks handed to the task queue *)
  log : list Effect;               (* writes issued so far, oldest first *)
  now : Z                          (* the clock the token library reads *)
}.

Definition with_users (f : gmap Z User → gmap Z User) (w : World) : World :=
  mkWorld (f (users w)) (profiles w) (blacklisted w) (in_atomic_block w)
          (run_on_commit w) (broker w) (log w) (now w).

Definition with_profiles (f : gmap Z Profile → gmap Z Profile) (w : World) : World :=
  mkWorld (users w) (f (profiles w)) (blacklisted w) (in_atomic_block w)
          (run_on_commit w) (broker w) (log w) (now w).

Definition with_blacklisted (f : gset string → gset string) (w : World) : World :=
  mkWorld (users w) (profiles w) (f (blacklisted w)) (in_atomic_block w)
          (run_on_commit w) (broker w) (log w) (now w).

Definition with_run_on_commit (f : list Task → list Task) (w : World) : World :=
  mkWorld (users w) (profiles w) (blacklisted w) (in_atomic_block w)
          (f (run_on_commit w)) (broker w) (log w) (now w).

Definition with_broker (f : list Task → list Task) (w : World) : World :=
  mkWorld (users w) (profiles w) (blacklisted w) (in_atomic_block w)
          (run_on_commit w) (f (broker w)) (log w) (now w).

Definition with_log (f : list Effect → list Effect) (w : World) : World :=
  mkWorld (users w) (profiles w) (blacklisted w) (in_atomic_block w)
          (run_on_commit w) (broker w) (f (log w)) (now w).

Definition with_now (t : Z) (w : World) : World :=
  mkWorld (users w) (profiles w) (blacklisted w) (in_atomic_block w)
          (run_on_commit w) (broker w) (log w) t.

(** ** Exceptions and the handler monad *)

Inductive Exn :=
| Http404
| PermissionDenied
| NotAuthenticated
| KeyError (key : string)
| RelatedObjectDoesNotExist
| MultipleObjectsReturned.

Inductive Result (A : Type) :=
| Ok (a : A)
| Raise (e : Exn).
Arguments Ok {A} a.
Arguments Raise {A} e.

(** A computation reads and writes the world and either returns or raises;
    writes made before a raise stay (no rollback is modelled). *)
Definition M (A : Type) : Type := World → Result A * World.

Definition ret {A} (a : A) : M A := fun w => (Ok a, w).

Definition bind {A B} (m : M A) (k : A → M B) : M B := fun w =>
  match m w with
  | (Ok a, w') => k a w'
  | (Raise e, w') => (Raise e, w')
  end.

Definition raise {A} (e : Exn) : M A := fun w => (Raise e, w).

Definition get_world : M World := fun w => (Ok w, w).

Definition modify (f : World → World) : M unit := fun w => (Ok tt, f w).

Declare Scope handler_scope.
Delimit Scope handler_scope with handler.
Notation "x <- c1 ;; c2" := (bind c1 (fun x => c2))
  (at level 100, c1 at next level, right associativity) : handler_scope.
Notation "c1 ;; c2" := (bind c1 (fun _ => c2))
  (at level 100, right associativity) : handler_scope.
Local Open Scope handler_scope.

(** ** The ORM *)

(** [instance.save()]: update the row with this primary key, insert it when
    there is none. *)
Definition save (u : User) : M unit :=
  modify (fun w => with_log (fun l => l ++ [DbSave u])
                     (with_users (insert (id u) u) w)).

(** [instance.delete()]: the row goes, and the profile with it by cascade. *)
Definition delete_user (u : User) : M unit :=
  modify (fun w => with_log (fun l => l ++ [DbDelete (id u)])
                     (with_profiles (delete (id u))
                        (with_users (delete (id u)) w))).

(** The rows [User.objects.filter(email=e)] selects. *)
Definition filter_email (e : string) (w : World) : list (Z * User) :=
  map_to_list (filter (fun kv => email (snd kv) = e) (users w)).

(** [User.objects.get(email=e)]; [None] stands for [User.DoesNotExist],
    which the caller catches. *)
Definition objects_get_email (e : string) : M (option User) := fun w =>
  match filter_email e w with
  | [] => (Ok None, w)
  | [(_, u)] => (Ok (Some u), w)
  | _ => (Raise MultipleObjectsReturned, w)
  end.

(** [user.profile], the reverse one-to-one accessor. *)
Definition profile_of (u : User) : M Profile := fun w =>
  match profiles w !! id u with
  | Some p => (Ok p, w)
  | None => (Raise RelatedObjectDoesNotExist, w)
  end.

(** ** The task queue and the object store *)

(** [django.db.transaction.on_commit]: inside a transaction the hook is
    registered with it; outside one (autocommit, the preceding writes already
    committed) the hook runs at once and hands the task to the queue. *)
Definition on_commit (t : Task) (w : World) : World :=
  if in_atomic_block w
  then with_run_on_commit (fun q => q ++ [t]) w
  else with_broker (fun q => q ++ [t]) w.

(** [send_verification_email.delay_on_commit(...)]. *)
Definition delay_on_commit (t : Task) : M unit :=
  modify (on_commit t).

(** Committing the open transaction fires its hooks in order. *)
Definition commit (w : World) : World :=
  mkWorld (users w) (profiles w) (blacklisted w) false
          [] (broker w ++ run_on_commit w) (log w) (now w).

(** [Bucket().delete_object(key)]. *)
Definition delete_object (key : string) : M unit :=
  modify (with_log (fun l => l ++ [BucketDelete key])).

(** ** Requests and serializers *)

Inductive Method := GET | PATCH | DELETE.

(** [request.user] is [None] for the anonymous user; [request.data] is the
    parsed body. *)
Record Request := mkRequest {
  request_method : Method;
  request_user : option User;
  request_data : gmap string string
}.

(** The outcome of [serializer.is_valid()]: [validated_data] or [errors]. *)
Inductive Validated (A : Type) :=
| Valid (validated_data : A)
| Invalid (errors : Json).
Arguments Valid {A} validated_data.
Arguments Invalid {A} errors.

(** [validated_data] of [UserRegisterSerializer]. *)
Record RegisterData := mkRegisterData {
  vd_username : string;
  vd_email : string;
  vd_password : string
}.

(** [validated_data] of the partial [UserSerializer]: a key is present
    ([Some]) exactly when the serializer accepted a value for it.  Which
    keys the serializer accepts is decided outside the views; [is_active]
    is listed because saving the serializer assigns every key it holds. *)
Record UserData := mkUserData {
  upd_username : option string;
  upd_email : option string;
  upd_is_active : option bool
}.

(** What [isinstance(token_result, User)] tells apart. *)
Inductive TokenResult :=
| IsUser (u : User)
| NotUser (r : Response).

(** The code the views import from the rest of the project and from the
    token library.  The views are written against these names only. *)
Class Collaborators := {
  (* stackoverflow_clone.utils.JWT_token.get_user *)
  get_user : string → World → TokenResult;
  (* users.services.register *)
  register : string → string → string → M User;
  (* django.contrib.auth.hashers.make_password *)
  make_password : string → string;
  (* permissions.IsOwnerOrReadOnly.has_object_permission *)
  has_object_permission : Request → User → bool;
  (* users.serializers *)
  UserRegisterSerializer : gmap string string → World → Validated RegisterData;
  SetPasswordSerializer : gmap string string → Validated string;
  ResetPasswordSerializer : gmap string string → Validated string;
  TokenSerializer : gmap string string → Validated unit;
  UserSerializer : User → gmap string string → World → Validated UserData;
  to_representation : User → World → Json;
  (* the token backend: signature and structure of a JSON web token *)
  decode : string → option TokenPayload
}.

(** [user.set_password(raw)]. *)
Definition set_password `{Collaborators} (raw : string) (u : User) : User :=
  set_password_hash (make_password raw) u.

Definition message (m : string) : option Json :=
  Some (JObj [("message", JStr m)]).

Definition errors_body (e : Json) : option Json :=
  Some (JObj [("errors", e)]).

(** ** rest_framework_simplejwt *)

(** [RefreshToken(raw)]: the backend decodes the token, then [verify()]
    checks the blacklist, the expiry and the token type.  The blacklist
    check comes with the blacklist app, the one that gives a token its
    [blacklist()] method.  [None] stands for [TokenError]. *)
Definition RefreshToken `{Collaborators} (raw : string) (w : World)
  : option TokenPayload :=
  match decode raw with
  | None => None
  | Some p =>
      if bool_decide (jti p ∈ blacklisted w) then None
      else if exp p <=? now w then None
      else if String.eqb (token_type p) "refresh" then Some p
      else None
  end.

(** [token.blacklist()]: get-or-create of the blacklist row for the jti. *)
Definition blacklist (p : TokenPayload) : M unit :=
  modify (with_blacklisted (fun s => {[jti p]} ∪ s)).

(** ** The views *)

Module UserRegisterAPI.

Definition post `{Collaborators} (request : Request) : M Response :=
  w <- get_world ;;
  match UserRegisterSerializer (request_data request) w with
  | Valid vd =>
      user <- register (vd_username vd) (vd_email vd) (vd_password vd) ;;
      delay_on_commit (mkTask (vd_email vd) (id user) "verification"
                              "Verification URL from AskTech") ;;
      ret (mkResponse
             (Some (JObj [("data",
                JObj [("message",
                       JStr "We`ve sent you an activation link via email.")])]))
             HTTP_201_CREATED)
  | Invalid errors =>
      ret (mkResponse (errors_body errors) HTTP_400_BAD_REQUEST)
  end.

End UserRegisterAPI.

Module UserRegisterVerifyAPI.

Definition get `{Collaborators} (request : Request) (token : string)
  : M Response :=
  w <- get_world ;;
  match get_user token w with
  | NotUser token_result => ret token_result
  | IsUser token_result =>
      if is_active token_result then
        ret (mkResponse (message "this account already is active.")
                        HTTP_409_CONFLICT)
      else
        let token_result := set_is_active true token_result in
        save token_result ;;
        ret (mkResponse (message "Account activated successfully.")
                        HTTP_200_OK)
  end.

End UserRegisterVerifyAPI.

Module SetPasswordAPI.

Definition post `{Collaborators} (request : Request) (token : string)
  : M Response :=
  let srz_data := SetPasswordSerializer (request_data request) in
  w <- get_world ;;
  match get_user token w with
  | NotUser token_result => ret token_result
  | IsUser token_result =>
      match srz_data with
      | Valid new_password =>
          let token_result := set_password new_password token_result in
          save token_result ;;
          ret (mkResponse (message "Password changed successfully.")
                          HTTP_200_OK)
      | Invalid errors =>
          ret (mkResponse (errors_body errors) HTTP_400_BAD_REQUEST)
      end
  end.

End SetPasswordAPI.

Module ResetPasswordAPI.

Definition post `{Collaborators} (request : Request) : M Response :=
  match ResetPasswordSerializer (request_data request) with
  | Valid vd_email =>
      found <- objects_get_email vd_email ;;
      match found with
      | None =>
          ret (mkResponse
                 (Some (JObj [("errors",
                               JStr "user with this Email not found.")]))
                 HTTP_404_NOT_FOUND)
      | Some user =>
          delay_on_commit (mkTask (email user) (id user) "reset_password"
                                  "Reset Password Link:") ;;
          ret (mkResponse
                 (message "A password reset link has been sent to your email.")
                 HTTP_202_ACCEPTED)
      end
  | Invalid errors =>
      ret (mkResponse (errors_body errors) HTTP_400_BAD_REQUEST)
  end.

End ResetPasswordAPI.

Module BlockTokenAPI.

Definition post `{Collaborators} (request : Request) : M Response :=
  match TokenSerializer (request_data request) with
  | Valid _ =>
      match request_data request !! "refresh" with
      | None => raise (KeyError "refresh")
      | Some raw =>
          w <- get_world ;;
          match RefreshToken raw w with
          | None =>
              ret (mkResponse
                     (errors_body
                        (JObj [("refresh",
                                JStr "The provided token is invalid or has expired.")]))
                     HTTP_400_BAD_REQUEST)
          | Some token =>
              blacklist token ;;
              ret (mkResponse (message "Token blocked successfully!")
                              HTTP_204_NO_CONTENT)
          end
      end
  | Invalid errors =>
      ret (mkResponse (errors_body errors) HTTP_400_BAD_REQUEST)
  end.

End BlockTokenAPI.

(** [rest_framework.views.exception_handler]: the exceptions the framework
    turns into responses; any other exception propagates.  The status codes
    are the framework's; the [detail] text of the 404 is that of the releases
    before 3.15, later ones print the message of the [Http404] instead. *)
Definition exception_handler (e : Exn) : option Response :=
  match e with
  | Http404 =>
      Some (mkResponse (Some (JObj [("detail", JStr "Not found.")]))
                       HTTP_404_NOT_FOUND)
  | PermissionDenied =>
      Some (mkResponse
              (Some (JObj [("detail",
                 JStr "You do not have permission to perform this action.")]))
              HTTP_403_FORBIDDEN)
  | NotAuthenticated =>
      Some (mkResponse
              (Some (JObj [("detail",
                 JStr "Authentication credentials were not provided.")]))
              HTTP_401_UNAUTHORIZED)
  | _ => None
  end.

(** [ModelSerializer.update(instance, validated_data)] before its
    [instance.save()]: every validated key is assigned to the attribute of
    that name. *)
Definition update (instance : User) (validated_data : UserData) : User :=
  let instance := match upd_username validated_data with
                  | Some v => set_username v instance
                  | None => instance
                  end in
  let instance := match upd_email validated_data with
                  | Some v => set_email v instance
                  | None => instance
                  end in
  match upd_is_active validated_data with
  | Some v => set_is_active v instance
  | None => instance
  end.

Module UserProfileAPI.

(** [GenericAPIView.get_object()] with
    [queryset = User.objects.filter(is_active=True)] and
    [lookup_field = 'id']: [get_object_or_404], then the object
    permission check. *)
Definition get_object `{Collaborators} (request : Request) (pk : Z)
  : M User :=
  w <- get_world ;;
  match filter (fun kv => is_active (snd kv) = true) (users w) !! pk with
  | None => raise Http404
  | Some obj =>
      if has_object_permission request obj then ret obj
      else match request_user request with
           | None => raise NotAuthenticated
           | Some _ => raise PermissionDenied
           end
  end.

(** [RetrieveModelMixin.retrieve], inherited. *)
Definition retrieve `{Collaborators} (request : Request) (pk : Z)
  : M Response :=
  instance <- get_object request pk ;;
  w <- get_world ;;
  ret (mkResponse (Some (to_representation instance w)) HTTP_200_OK).

Definition patch `{Collaborators} (request : Request) (pk : Z)
  : M Response :=
  user <- get_object request pk ;;
  w <- get_world ;;
  match UserSerializer user (request_data request) w with
  | Valid validated_data =>
      let message_ := "Updated profile successfully." in
      um <- match upd_email validated_data with
            | Some new_email =>
                let user := set_is_active false user in
                save user ;;
                delay_on_commit (mkTask new_email (id user) "verification"
                                        "Verification URL from AskTech.") ;;
                ret (user, String.append message_
                       " A verification link has been sent to your new email address.")
            | None => ret (user, message_)
            end ;;
      (* serializer.save(): the serializer's instance is this same object *)
      save (update (fst um) validated_data) ;;
      ret (mkResponse (message (snd um)) HTTP_200_OK)
  | Invalid errors =>
      ret (mkResponse (errors_body errors) HTTP_400_BAD_REQUEST)
  end.

Definition destroy `{Collaborators} (request : Request) (pk : Z)
  : M Response :=
  user <- get_object request pk ;;
  profile <- profile_of user ;;
  (if negb (String.eqb (avatar profile) "") then
     user' <- get_object request pk ;;
     profile' <- profile_of user' ;;
     delete_object (avatar profile')
   else ret tt) ;;
  (* super().destroy(): DestroyModelMixin *)
  instance <- get_object request pk ;;
  delete_user instance ;;
  ret (mkResponse None HTTP_204_NO_CONTENT).

(** [APIView.dispatch] from the handler on: the method picks the handler,
    and an exception it raises goes through the exception handler. *)
Definition dispatch `{Collaborators} (request : Request) (pk : Z)
  : M Response := fun w =>
  let handler := match request_method request with
                 | GET => retrieve
                 | PATCH => patch
                 | DELETE => destroy
                 end in
  match handler request pk w with
  | (Ok response, w') => (Ok response, w')
  | (Raise e, w') =>
      match exception_handler e with
      | Some response => (Ok response, w')
      | None => (Raise e, w')
      end
  end.

End UserProfileAPI.

(** ** The collaborators as the specification describes them *)

Definition required (field : string) : Json :=
  JObj [(field, JStr "This field is required.")].

Definition invalid_token_response : Response :=
  mkResponse (Some (JObj [("error", JStr "Invalid or expired token.")]))
             HTTP_400_BAD_REQUEST.

(** Modelled from the spec: [JWT_token.get_user] is not in [views.py].  The
    Token Verifier decodes the token and validates signature and expiry; on
    success it returns the referenced user, on a malformed, expired or
    dangling token the same response-shaped failure.  It is given the token
    alone, as at its two call sites. *)
Definition spec_get_user (decode : string → option TokenPayload)
    (token : string) (w : World) : TokenResult :=
  let failure := NotUser invalid_token_response in
  match decode token with
  | None => failure
  | Some p =>
      if exp p <=? now w then failure
      else match users w !! user_id p with
           | Some u => IsUser u
           | None => failure
           end
  end.

(** Modelled from the spec: [services.register] and the [User] model are not
    in [views.py].  Register creates an inactive user under a fresh primary
    key, with the hashed password and its one-to-one profile. *)
Definition spec_register (make_password : string → string)
    (username email password : string) : M User := fun w =>
  let pk := fresh (dom (users w)) in
  let user := mkUser pk username email (make_password password)
                     false false false None in
  (Ok user,
   with_log (fun l => l ++ [DbSave user])
     (with_profiles (insert pk (mkProfile "" ""))
        (with_users (insert pk user) w))).

(** Modelled from the spec: [permissions.IsOwnerOrReadOnly] is not in
    [views.py].  Any caller may GET, only the owning identity may PATCH or
    DELETE. *)
Definition IsOwnerOrReadOnly (request : Request) (obj : User) : bool :=
  match request_method request with
  | GET => true
  | _ => match request_user request with
         | Some u => bool_decide (id u = id obj)
         | None => false
         end
  end.

(** Modelled from the spec: the serializers are not in [views.py].  The
    register serializer wants the three fields and an unused email. *)
Definition spec_UserRegisterSerializer (d : gmap string string) (w : World)
  : Validated RegisterData :=
  match d !! "username", d !! "email", d !! "password" with
  | Some u, Some e, Some p =>
      match filter_email e w with
      | [] => Valid (mkRegisterData u e p)
      | _ => Invalid (JObj [("email", JStr "user with this email already exists.")])
      end
  | None, _, _ => Invalid (required "username")
  | _, None, _ => Invalid (required "email")
  | _, _, None => Invalid (required "password")
  end.

(** Modelled from the spec: the set-password serializer wants a non-empty
    new password. *)
Definition spec_SetPasswordSerializer (d : gmap string string)
  : Validated string :=
  match d !! "new_password" with
  | Some p => if String.eqb p "" then Invalid (required "new_password")
              else Valid p
  | None => Invalid (required "new_password")
  end.

(** Modelled from the spec: the reset-password serializer wants an email. *)
Definition spec_ResetPasswordSerializer (d : gmap string string)
  : Validated string :=
  match d !! "email" with
  | Some e => Valid e
  | None => Invalid (required "email")
  end.

(** Modelled from the spec: the token serializer validates the presence of
    the refresh token. *)
Definition spec_TokenSerializer (d : gmap string string) : Validated unit :=
  match d !! "refresh" with
  | Some _ => Valid tt
  | None => Invalid (required "refresh")
  end.

(** Modelled from the spec: the partial user serializer merges only the
    supplied fields; the account flags are not profile fields. *)
Definition spec_UserSerializer (instance : User) (d : gmap string string)
    (w : World) : Validated UserData :=
  Valid (mkUserData (d !! "username") (d !! "email") None).

(** Modelled from the spec: the representation of a user that a GET
    returns. *)
Definition spec_to_representation (u : User) (w : World) : Json :=
  JObj [("username", JStr (username u)); ("email", JStr (email u))].

(** A token backend with four issued tokens; every other string fails to
    decode, as a malformed or tampered token does. *)
Definition issued : list (string * TokenPayload) :=
  [("tok-verify-alice", mkPayload "access" "verification" 1 "j1" 2000);
   ("tok-verify-bob", mkPayload "access" "verification" 2 "j2" 2000);
   ("tok-expired-alice", mkPayload "access" "verification" 1 "j3" 500);
   ("refresh-bob", mkPayload "refresh" "" 2 "r1" 5000)].

Definition issued_decode (raw : string) : option TokenPayload :=
  snd <$> List.find (fun kv => String.eqb (fst kv) raw) issued.

(** A stand-in for the password hasher. *)
Definition spec_make_password (raw : string) : string :=
  String.append "pbkdf2$" raw.

#[local] Instance spec_collaborators : Collaborators := {|
  get_user := spec_get_user issued_decode;
  register := spec_register spec_make_password;
  make_password := spec_make_password;
  has_object_permission := IsOwnerOrReadOnly;
  UserRegisterSerializer := spec_UserRegisterSerializer;
  SetPasswordSerializer := spec_SetPasswordSerializer;
  ResetPasswordSerializer := spec_ResetPasswordSerializer;
  TokenSerializer := spec_TokenSerializer;
  UserSerializer := spec_UserSerializer;
  to_representation := spec_to_representation;
  decode := issued_decode
|}.

(** ** A sample database *)

Definition alice : User :=
  mkUser 1 "alice" "a@x.com" "pbkdf2$Secret123!" false false false None.

Definition bob : User :=
  mkUser 2 "bob" "b@x.com" "pbkdf2$hunter2" true false false None.

Definition carol : User :=
  mkUser 3 "carol" "c@x.com" "pbkdf2$carol" true false false None.

Definition w0 : World :=
  mkWorld {[1 := alice; 2 := bob; 3 := carol]}
          {[1 := mkProfile "" ""; 2 := mkProfile "avatars/bob.png" "";
            3 := mkProfile "" "hi"]}
          ∅ false [] [] [] 1000.

(** The same database inside an open transaction. *)
Definition w0_atomic : World :=
  mkWorld (users w0) (profiles w0) ∅ true [] [] [] 1000.

Definition body (kvs : list (string * string)) : gmap string string :=
  list_to_map kvs.

(** The two endpoints that consume a token, and the purpose tag each one is
    meant for (the tags are the action names the views hand to
    [send_verification_email]). *)
Inductive TokenEndpoint := VerifyEndpoint | SetPasswordEndpoint.

Definition expected_purpose (ep : TokenEndpoint) : string :=
  match ep with
  | VerifyEndpoint => "verification"
  | SetPasswordEndpoint => "reset_password"
  end.

Definition consume `{Collaborators} (ep : TokenEndpoint) (request : Request)
    (token : string) : M Response :=
  match ep with
  | VerifyEndpoint => UserRegisterVerifyAPI.get request token
  | SetPasswordEndpoint => SetPasswordAPI.post request token
  end.

Definition anonymous (d : list (string * string)) : Request :=
  mkRequest GET None (body d).

Definition new_password_request : Request :=
  anonymous [("new_password", "Sesame1!")].

Definition block_request : Request :=
  anonymous [("refresh", "refresh-bob")].

Definition token_blocked_response : Response :=
  mkResponse (message "Token blocked successfully!") HTTP_204_NO_CONTENT.

Definition token_invalid_response : Response :=
  mkResponse
    (errors_body
       (JObj [("refresh", JStr "The provided token is invalid or has expired.")]))
    HTTP_400_BAD_REQUEST.

(** The world once bob's refresh token is blacklisted. *)
Definition w0_blocked : World :=
  with_blacklisted (fun s => {["r1"]} ∪ s) w0.

Definition not_found_response : Response :=
  mkResponse (Some (JObj [("detail", JStr "Not found.")])) HTTP_404_NOT_FOUND.

Definition verification_sent : string :=
  "Updated profile successfully. A verification link has been sent to your new email address.".

(** bob asks for his own account to be deleted; carol for hers. *)
Definition bob_deletes : Request := mkRequest DELETE (Some bob) ∅.
Definition carol_deletes : Request := mkRequest DELETE (Some carol) ∅.

(** bob patches his profile: a new email and a new username; his current
    email again; a new username only. *)
Definition bob_moves : Request :=
  mkRequest PATCH (Some bob) (body [("email", "bob@new.org"); ("username", "bobby")]).
Definition bob_same_email : Request :=
  mkRequest PATCH (Some bob) (body [("email", "b@x.com")]).
Definition bob_renames : Request :=
  mkRequest PATCH (Some bob) (body [("username", "bobby")]).

Definition registered_response : Response :=
  mkResponse
    (Some (JObj [("data",
       JObj [("message", JStr "We`ve sent you an activation link via email.")])]))
    HTTP_201_CREATED.

Definition dave_registers : Request :=
  anonymous [("username", "dave"); ("email", "d@x.com"); ("password", "Secret123!")].

(** ** The remaining account views *)

(** The serializers of the two views below, which the other views do not
    use: the resend serializer resolves the email to a user
    ([validated_data['user']]); the change-password serializer is built with
    [context={'user': request.user}] and yields the new password. *)
Class AccountSerializers := {
  ResendVerificationEmailSerializer :
    gmap string string → World → Validated User;
  ChangePasswordSerializer : User → gmap string string → Validated string
}.

Module ResendVerificationEmailAPI.

Definition post `{AccountSerializers} (request : Request) : M Response :=
  w <- get_world ;;
  match ResendVerificationEmailSerializer (request_data request) w with
  | Valid user =>
      delay_on_commit (mkTask (email user) (id user) "verification"
                              "Verification URL from AskTech") ;;
      ret (mkResponse
             (message "We`ve resent the activation link to your email.")
             HTTP_202_ACCEPTED)
  | Invalid errors =>
      ret (mkResponse (errors_body errors) HTTP_400_BAD_REQUEST)
  end.

End ResendVerificationEmailAPI.

Module ChangePasswordAPI.

(** [permission_classes = [IsAuthenticated]]: the anonymous user is turned
    away before the body of [put] runs; past the check [request.user] is a
    [User]. *)
Definition put `{Collaborators} `{AccountSerializers} (request : Request)
  : M Response :=
  match request_user request with
  | None => raise NotAuthenticated
  | Some user =>
      match ChangePasswordSerializer user (request_data request) with
      | Valid new_password =>
          let user := set_password new_password user in
          save user ;;
          ret (mkResponse (message "Your password changed successfully.")
                          HTTP_200_OK)
      | Invalid errors =>
          ret (mkResponse (errors_body errors) HTTP_400_BAD_REQUEST)
      end
  end.

End ChangePasswordAPI.

(** Modelled from the spec: the resend serializer is not in [views.py].  It
    resolves the email to an existing, inactive user and answers every
    failure with the same generic error. *)
Definition spec_ResendVerificationEmailSerializer (d : gmap string string)
    (w : World) : Validated User :=
  let generic := Invalid (JObj [("email", JStr "Invalid email address.")]) in
  match d !! "email" with
  | None => generic
  | Some e =>
      match filter_email e w with
      | [(_, u)] => if is_active u then generic else Valid u
      | _ => generic
      end
  end.

(** Modelled from the spec: the change-password serializer is not in
    [views.py].  It wants a non-empty new password. *)
Definition spec_ChangePasswordSerializer (user : User)
    (d : gmap string string) : Validated string :=
  match d !! "new_password" with
  | Some p => if String.eqb p "" then Invalid (required "new_password")
              else Valid p
  | None => Invalid (required "new_password")
  end.

#[local] Instance spec_account_serializers : AccountSerializers := {|
  ResendVerificationEmailSerializer := spec_ResendVerificationEmailSerializer;
  ChangePasswordSerializer := spec_ChangePasswordSerializer
|}.

(** A user serializer that refuses an empty username, for the rejected
    PATCH; otherwise the one above. *)
Definition strict_UserSerializer (instance : User) (d : gmap string string)
    (w : World) : Validated UserData :=
  match d !! "username" with
  | Some "" => Invalid (JObj [("username", JStr "This field may not be blank.")])
  | _ => spec_UserSerializer instance d w
  end.

Definition strict_collaborators : Collaborators := {|
  get_user := spec_get_user issued_decode;
  register := spec_register spec_make_password;
  make_password := spec_make_password;
  has_object_permission := IsOwnerOrReadOnly;
  UserRegisterSerializer := spec_UserRegisterSerializer;
  SetPasswordSerializer := spec_SetPasswordSerializer;
  ResetPasswordSerializer := spec_ResetPasswordSerializer;
  TokenSerializer := spec_TokenSerializer;
  UserSerializer := strict_UserSerializer;
  to_representation := spec_to_representation;
  decode := issued_decode
|}.

Definition bob_blank_username : Request :=
  mkRequest PATCH (Some bob) (body [("username", "")]).

(** [w'] keeps everything [w] had queued, logged and blacklisted: the
    queues and the log of writes only grow at their end, the blacklist only
    grows, and the clock and the transaction state are as before. *)
Definition extends (w w' : World) : Prop :=
  blacklisted w ⊆ blacklisted w' ∧
  run_on_commit w `prefix_of` run_on_commit w' ∧
  broker w `prefix_of` broker w' ∧
  log w `prefix_of` log w' ∧
  in_atomic_block w' = in_atomic_block w ∧
  now w' = now w.

(** The tasks [w] holds, waiting for the commit or already handed over. *)
Definition queued (w : World) : nat :=
  length (run_on_commit w) + length (broker w).

(** A table in which two rows share an email. *)
Definition w_dup : World :=
  mkWorld {[1 := alice;
            5 := mkUser 5 "alice2" "a@x.com" "pbkdf2$other" true false false None]}
          ∅ ∅ false [] [] [] 1000.

(** bob's row without a profile row. *)
Definition w_no_profile : World :=
  mkWorld {[2 := bob]} ∅ ∅ false [] [] [] 1000.

(** carol, and nobody, ask for bob's account to be deleted. *)
Definition carol_deletes_bob : Request := mkRequest DELETE (Some carol) ∅.
Definition nobody_deletes_bob : Request := mkRequest DELETE None ∅.

Definition bob_empty_patch : Request := mkRequest PATCH (Some bob) ∅.

Definition bob_new_password : Request :=
  mkRequest PATCH (Some bob) (body [("new_password", "Sesame1!")]).

Definition forbidden_response : Response :=
  mkResponse
    (Some (JObj [("detail",
       JStr "You do not have permission to perform this action.")]))
    HTTP_403_FORBIDDEN.

Definition unauthorized_response : Response :=
  mkResponse
    (Some (JObj [("detail",
       JStr "Authentication credentials were not provided.")]))
    HTTP_401_UNAUTHORIZED.

(** * Properties *)

Ltac run :=
  unfold bind, ret, raise, get_world, modify, save, delete_user,
    delay_on_commit, delete_object, blacklist; simpl.

(** ** Token-gated endpoints *)

Section token_endpoints.
Context `{Collaborators}.

Lemma verify_rejected request token w r :
  get_user token w = NotUser r →
  UserRegisterVerifyAPI.get request token w = (Ok r, w).
Proof. intros Hr. unfold UserRegisterVerifyAPI.get. run. by rewrite Hr. Qed.

Lemma set_password_rejected request token w r :
  get_user token w = NotUser r →
  SetPasswordAPI.post request token w = (Ok r, w).
Proof. intros Hr. unfold SetPasswordAPI.post. run. by rewrite Hr. Qed.

(** The verifier is handed the token and nothing else, so a token it
    resolves to a user opens both endpoints: the set-password handler
    stores the new password whatever the purpose tag of the token. *)
Lemma set_password_accepted request token w u new_password :
  get_user token w = IsUser u →
  SetPasswordSerializer (request_data request) = Valid new_password →
  SetPasswordAPI.post request token w =
    (Ok (mkResponse (message "Password changed successfully.") HTTP_200_OK),
     with_log (fun l => l ++ [DbSave (set_password new_password u)])
       (with_users (insert (id u) (set_password new_password u)) w)).
Proof.
  intros Hu Hv. unfold SetPasswordAPI.post. run. by rewrite Hu, Hv.
Qed.

(** The payload errors are reported only once the token has resolved to a
    user. *)
Lemma set_password_payload_errors request token w u errors :
  get_user token w = IsUser u →
  SetPasswordSerializer (request_data request) = Invalid errors →
  SetPasswordAPI.post request token w =
    (Ok (mkResponse (errors_body errors) HTTP_400_BAD_REQUEST), w).
Proof.
  intros Hu He. unfold SetPasswordAPI.post. run. by rewrite Hu, He.
Qed.

End token_endpoints.

(** A token on which the verification endpoint writes anything opens
    set-password too: both handlers ask the verifier the same question. *)
Lemma token_cross_use `{Collaborators} (request request' : Request)
    (token : string) (w : World) (new_password : string) :
  snd (UserRegisterVerifyAPI.get request token w) ≠ w →
  SetPasswordSerializer (request_data request') = Valid new_password →
  fst (SetPasswordAPI.post request' token w) =
    Ok (mkResponse (message "Password changed successfully.") HTTP_200_OK).
Proof.
  intros Hget Hv.
  destruct (get_user token w) as [u|r] eqn:Hu.
  - by rewrite (set_password_accepted _ _ _ _ _ Hu Hv).
  - by rewrite (verify_rejected _ _ _ _ Hu) in Hget.
Qed.

(** The verifier of the specification rejects a token that does not decode
    (malformed or tampered), one that has expired, and one whose user is
    gone, always with the same response. *)
Lemma spec_get_user_rejects (decode : string → option TokenPayload)
    (token : string) (w : World) :
  (decode token = None ∨
   ∃ p, decode token = Some p ∧
        (exp p ≤ now w ∨ users w !! user_id p = None)) →
  spec_get_user decode token w = NotUser invalid_token_response.
Proof.
  unfold spec_get_user. intros [->|(p & -> & Hp)]; [done|].
  destruct (Z.leb_spec (exp p) (now w)) as [|Hlt]; [done|].
  destruct Hp as [Hle| ->]; [lia|done].
Qed.

(** C1, amended.  At both endpoints that consume a token, a token the Token
    Verifier rejects (it answers with a response instead of a user) leaves
    the whole world, and so every User record, as it was, and the handler
    returns the verifier's own failure response without raising. *)
Theorem rejected_token_mutates_nothing `{Collaborators}
    (ep : TokenEndpoint) (request : Request) (token : string) (w : World)
    (r : Response) :
  get_user token w = NotUser r →
  consume ep request token w = (Ok r, w).
Proof.
  intros Hr. destruct ep; simpl.
  - by apply verify_rejected.
  - by apply set_password_rejected.
Qed.

Lemma rejected_token_mutates_nothing_witness :
  consume VerifyEndpoint (anonymous []) "tok-expired-alice" w0
    = (Ok invalid_token_response, w0) ∧
  consume SetPasswordEndpoint new_password_request "not-a-token" w0
    = (Ok invalid_token_response, w0).
Proof.
  split.
  - apply (rejected_token_mutates_nothing (H := spec_collaborators)). reflexivity.
  - apply (rejected_token_mutates_nothing (H := spec_collaborators)). reflexivity.
Defined.

(** C1 as stated fails for the purpose tag: the token issued to alice for
    verification carries the tag ["verification"], not the
    ["reset_password"] the set-password endpoint is meant for, yet the
    endpoint answers 200 and overwrites her password. *)
Lemma wrong_purpose_token_sets_password :
  purpose <$> decode "tok-verify-alice" = Some "verification" ∧
  "verification" ≠ expected_purpose SetPasswordEndpoint ∧
  fst (consume SetPasswordEndpoint new_password_request "tok-verify-alice" w0)
    = Ok (mkResponse (message "Password changed successfully.") HTTP_200_OK) ∧
  password <$> users w0 !! 1 = Some "pbkdf2$Secret123!" ∧
  password <$> users (snd (consume SetPasswordEndpoint new_password_request
                                   "tok-verify-alice" w0)) !! 1
    = Some "pbkdf2$Sesame1!".
Proof. repeat split; try reflexivity. discriminate. Qed.

(** C2.  For a user the verifier resolves from the token: an inactive user
    is saved once with [is_active = true] (every other column and every
    other row as before) and the answer is 200; an active user gets 409 and
    the world is untouched. *)
Theorem verify_activates_or_conflicts `{Collaborators}
    (request : Request) (token : string) (w : World) (u : User) :
  get_user token w = IsUser u →
  (is_active u = false →
     ∃ w', UserRegisterVerifyAPI.get request token w =
             (Ok (mkResponse (message "Account activated successfully.")
                             HTTP_200_OK), w') ∧
           users w' = <[id u := set_is_active true u]> (users w) ∧
           is_active (set_is_active true u) = true ∧
           log w' = log w ++ [DbSave (set_is_active true u)] ∧
           w' = with_log (fun _ => log w') (with_users (fun _ => users w') w)) ∧
  (is_active u = true →
     UserRegisterVerifyAPI.get request token w =
       (Ok (mkResponse (message "this account already is active.")
                       HTTP_409_CONFLICT), w)).
Proof.
  intros Hu. unfold UserRegisterVerifyAPI.get. run. rewrite Hu.
  split; intros Ha; rewrite Ha; [|done].
  eexists. split; [reflexivity|]. by destruct w.
Qed.

Lemma verify_activates_or_conflicts_witness :
  (∃ w', UserRegisterVerifyAPI.get (anonymous []) "tok-verify-alice" w0 =
           (Ok (mkResponse (message "Account activated successfully.")
                           HTTP_200_OK), w') ∧
         users w' = <[1 := set_is_active true alice]> (users w0) ∧
         is_active (set_is_active true alice) = true ∧
         log w' = log w0 ++ [DbSave (set_is_active true alice)] ∧
         w' = with_log (fun _ => log w') (with_users (fun _ => users w') w0)) ∧
  UserRegisterVerifyAPI.get (anonymous []) "tok-verify-bob" w0 =
    (Ok (mkResponse (message "this account already is active.")
                    HTTP_409_CONFLICT), w0).
Proof.
  split.
  - apply (verify_activates_or_conflicts (H := spec_collaborators)
             (anonymous []) "tok-verify-alice" w0 alice); reflexivity.
  - apply (verify_activates_or_conflicts (H := spec_collaborators)
             (anonymous []) "tok-verify-bob" w0 bob); reflexivity.
Defined.

(** The end-to-end run of the specification: alice verifies, then presents
    the same token again. *)
Example verify_then_reverify :
  UserRegisterVerifyAPI.get (anonymous []) "tok-verify-alice"
    (snd (UserRegisterVerifyAPI.get (anonymous []) "tok-verify-alice" w0))
  = (Ok (mkResponse (message "this account already is active.")
                    HTTP_409_CONFLICT),
     snd (UserRegisterVerifyAPI.get (anonymous []) "tok-verify-alice" w0)).
Proof. reflexivity. Qed.

(** C9.  In set-password the token is judged before the payload: when the
    verifier rejects the token the handler returns the verifier's response,
    also when the new-password payload is invalid, and the password column
    of every User row stays as it was. *)
Theorem set_password_token_first `{Collaborators}
    (request : Request) (token : string) (w : World) (r : Response) :
  get_user token w = NotUser r →
  SetPasswordAPI.post request token w = (Ok r, w) ∧
  (∀ errors,
     SetPasswordSerializer (request_data request) = Invalid errors →
     fst (SetPasswordAPI.post request token w) = Ok r) ∧
  (∀ pk, password <$> users (snd (SetPasswordAPI.post request token w)) !! pk
         = password <$> users w !! pk).
Proof.
  intros Hr. rewrite (set_password_rejected _ _ _ _ Hr). by repeat split.
Qed.

Lemma set_password_token_first_witness :
  SetPasswordSerializer (request_data (anonymous [])) = Invalid (required "new_password") ∧
  SetPasswordAPI.post (anonymous []) "tok-expired-alice" w0
    = (Ok invalid_token_response, w0).
Proof.
  split; [reflexivity|].
  apply (set_password_token_first (H := spec_collaborators)
           (anonymous []) "tok-expired-alice" w0 invalid_token_response).
  reflexivity.
Defined.

(** ** Reset-password request *)

Lemma filter_email_none (e : string) (w : World) :
  (∀ pk u, users w !! pk = Some u → email u ≠ e) →
  filter_email e w = [].
Proof.
  intros Hno. unfold filter_email.
  apply map_to_list_empty_iff, map_empty_filter.
  intros pk u Hu. simpl. by apply (Hno pk).
Qed.

Lemma filter_email_unique (e : string) (w : World) (pk : Z) (u : User) :
  users w !! pk = Some u →
  email u = e →
  (∀ pk' u', users w !! pk' = Some u' → email u' = e → pk' = pk) →
  filter_email e w = [(pk, u)].
Proof.
  intros Hu He Huniq. unfold filter_email.
  rewrite <- map_to_list_singleton. f_equal.
  apply map_eq. intros k.
  destruct (decide (k = pk)) as [->|Hne].
  - rewrite lookup_singleton_eq. by apply map_lookup_filter_Some.
  - rewrite lookup_singleton_ne by done.
    apply map_lookup_filter_None. right. intros u' Hu' He'. simpl in He'.
    apply Hne. by apply (Huniq k u').
Qed.

(** C5.  For a request the reset-password serializer accepts: when no user
    has the email the answer is 404 and nothing is queued or written; when
    exactly one user has it the answer is 202 and exactly one task, tagged
    [reset_password] and addressed to that user, is queued: inside a
    transaction it is appended to the on-commit hooks, outside one to the
    task queue, and nothing else in the world changes. *)
Theorem reset_password_request `{Collaborators}
    (request : Request) (w : World) (e : string) :
  ResetPasswordSerializer (request_data request) = Valid e →
  ((∀ pk u, users w !! pk = Some u → email u ≠ e) →
     ResetPasswordAPI.post request w =
       (Ok (mkResponse
              (Some (JObj [("errors", JStr "user with this Email not found.")]))
              HTTP_404_NOT_FOUND), w)) ∧
  (∀ pk u,
     users w !! pk = Some u →
     email u = e →
     (∀ pk' u', users w !! pk' = Some u' → email u' = e → pk' = pk) →
     ∃ w',
       ResetPasswordAPI.post request w =
         (Ok (mkResponse
                (message "A password reset link has been sent to your email.")
                HTTP_202_ACCEPTED), w') ∧
       (run_on_commit w', broker w') =
         (let task := mkTask e (id u) "reset_password" "Reset Password Link:" in
          if in_atomic_block w
          then (run_on_commit w ++ [task], broker w)
          else (run_on_commit w, broker w ++ [task])) ∧
       queued w' = S (queued w) ∧
       users w' = users w ∧
       profiles w' = profiles w ∧
       blacklisted w' = blacklisted w ∧
       log w' = log w ∧
       in_atomic_block w' = in_atomic_block w ∧
       now w' = now w).
Proof.
  intros Hv. unfold ResetPasswordAPI.post, objects_get_email. rewrite Hv.
  split.
  - intros Hno. run. by rewrite (filter_email_none _ _ Hno).
  - intros pk u Hu He Huniq. run.
    rewrite (filter_email_unique _ _ _ _ Hu He Huniq), He.
    eexists. split; [reflexivity|]. unfold on_commit, queued.
    destruct (in_atomic_block w) eqn:Hat; simpl; rewrite ?length_app; simpl;
      repeat split; first [done | lia].
Qed.

Lemma reset_password_request_witness :
  ResetPasswordAPI.post (anonymous [("email", "nobody@x.com")]) w0 =
    (Ok (mkResponse
           (Some (JObj [("errors", JStr "user with this Email not found.")]))
           HTTP_404_NOT_FOUND), w0) ∧
  (∃ w',
     ResetPasswordAPI.post (anonymous [("email", "b@x.com")]) w0 =
       (Ok (mkResponse
              (message "A password reset link has been sent to your email.")
              HTTP_202_ACCEPTED), w') ∧
     (run_on_commit w', broker w') =
       ([], [mkTask "b@x.com" 2 "reset_password" "Reset Password Link:"]) ∧
     queued w' = 1%nat ∧
     users w' = users w0 ∧
     log w' = log w0) ∧
  (∃ w',
     ResetPasswordAPI.post (anonymous [("email", "b@x.com")]) w0_atomic =
       (Ok (mkResponse
              (message "A password reset link has been sent to your email.")
              HTTP_202_ACCEPTED), w') ∧
     (run_on_commit w', broker w') =
       ([mkTask "b@x.com" 2 "reset_password" "Reset Password Link:"], []) ∧
     queued w' = 1%nat ∧
     users w' = users w0 ∧
     log w' = log w0).
Proof.
  split; [|split].
  - apply (reset_password_request (H := spec_collaborators)
             (anonymous [("email", "nobody@x.com")]) w0 "nobody@x.com");
      [reflexivity|].
    change (map_Forall (fun _ u => email u ≠ "nobody@x.com") (users w0)).
    apply (bool_decide_unpack _). vm_compute. exact I.
  - destruct (proj2 (reset_password_request (H := spec_collaborators)
                (anonymous [("email", "b@x.com")]) w0 "b@x.com" eq_refl)
                2 bob eq_refl eq_refl)
      as (w' & Hrun & Hq & Hn & Hu & _ & _ & Hl & _).
    { change (map_Forall (fun pk' u' => email u' = "b@x.com" → pk' = 2)
                         (users w0)).
      apply (bool_decide_unpack _). vm_compute. exact I. }
    exists w'. by repeat split.
  - destruct (proj2 (reset_password_request (H := spec_collaborators)
                (anonymous [("email", "b@x.com")]) w0_atomic "b@x.com" eq_refl)
                2 bob eq_refl eq_refl)
      as (w' & Hrun & Hq & Hn & Hu & _ & _ & Hl & _).
    { change (map_Forall (fun pk' u' => email u' = "b@x.com" → pk' = 2)
                         (users w0)).
      apply (bool_decide_unpack _). vm_compute. exact I. }
    exists w'. by repeat split.
Defined.

(** ** Blacklisting a refresh token *)

Lemma RefreshToken_decode `{Collaborators} (raw : string) (w : World)
    (p : TokenPayload) :
  RefreshToken raw w = Some p → decode raw = Some p.
Proof.
  unfold RefreshToken. destruct (decode raw) as [q|]; [|done].
  repeat case_match; congruence.
Qed.

(** A blacklisted token no longer loads, at any later time. *)
Lemma RefreshToken_blacklisted `{Collaborators} (raw : string) (w : World)
    (p : TokenPayload) :
  decode raw = Some p →
  jti p ∈ blacklisted w →
  RefreshToken raw w = None.
Proof.
  intros Hd Hin. unfold RefreshToken. rewrite Hd.
  by rewrite bool_decide_eq_true_2.
Qed.

(** [token.blacklist()] on its own is idempotent. *)
Lemma blacklist_idempotent (p : TokenPayload) (w : World) :
  snd (blacklist p (snd (blacklist p w))) = snd (blacklist p w).
Proof.
  unfold blacklist, modify, with_blacklisted. simpl. f_equal.
  by rewrite (assoc_L (∪)), (idemp_L (∪)).
Qed.

(** C6 as stated fails on the second call: blocking bob's refresh token
    answers 204 and blacklists it; blocking it again leaves that state as
    it is, but the call is answered with the 400 error response, because a
    blacklisted token no longer loads as a refresh token. *)
Lemma second_block_is_an_error :
  BlockTokenAPI.post block_request w0 = (Ok token_blocked_response, w0_blocked) ∧
  BlockTokenAPI.post block_request w0_blocked
    = (Ok token_invalid_response, w0_blocked) ∧
  status token_invalid_response = HTTP_400_BAD_REQUEST.
Proof. repeat split; vm_compute; reflexivity. Qed.

(** C6, amended.  For every refresh token that loads: the first block call
    answers 204 and adds the token's jti to the blacklist; from then on the
    token is rejected at any time, and a second block call raises nothing,
    changes nothing, and is answered with 400 and the field error; so the
    state after two calls is the state after one. *)
Theorem block_token_twice `{Collaborators}
    (request : Request) (w : World) (raw : string) (p : TokenPayload) :
  TokenSerializer (request_data request) = Valid tt →
  request_data request !! "refresh" = Some raw →
  RefreshToken raw w = Some p →
  BlockTokenAPI.post request w
    = (Ok token_blocked_response,
       with_blacklisted (fun s => {[jti p]} ∪ s) w) ∧
  ∀ t,
    let w1 := with_now t (with_blacklisted (fun s => {[jti p]} ∪ s) w) in
    RefreshToken raw w1 = None ∧
    BlockTokenAPI.post request w1 = (Ok token_invalid_response, w1).
Proof.
  intros Hv Hraw Hp. unfold BlockTokenAPI.post. rewrite Hv, Hraw. run.
  rewrite Hp. split; [done|]. intros t.
  assert (Hrej : RefreshToken raw
            (with_now t (with_blacklisted (fun s => {[jti p]} ∪ s) w)) = None).
  { apply (RefreshToken_blacklisted _ _ p).
    - by apply (RefreshToken_decode raw w).
    - simpl. set_solver. }
  by rewrite Hrej.
Qed.

Lemma block_token_twice_witness :
  BlockTokenAPI.post block_request w0
    = (Ok token_blocked_response,
       with_blacklisted (fun s => {["r1"]} ∪ s) w0) ∧
  ∀ t,
    RefreshToken "refresh-bob"
      (with_now t (with_blacklisted (fun s => {["r1"]} ∪ s) w0)) = None ∧
    BlockTokenAPI.post block_request
      (with_now t (with_blacklisted (fun s => {["r1"]} ∪ s) w0))
    = (Ok token_invalid_response,
       with_now t (with_blacklisted (fun s => {["r1"]} ∪ s) w0)).
Proof.
  apply (block_token_twice (H := spec_collaborators) block_request w0
           "refresh-bob" (mkPayload "refresh" "" 2 "r1" 5000));
    reflexivity.
Defined.

(** ** The profile endpoint *)

Section profile_endpoint.
Context `{Collaborators}.

Lemma get_object_active request pk w u :
  users w !! pk = Some u →
  is_active u = true →
  has_object_permission request u = true →
  UserProfileAPI.get_object request pk w = (Ok u, w).
Proof.
  intros Hu Ha Hp. unfold UserProfileAPI.get_object. run.
  rewrite (map_lookup_filter_Some_2 _ _ _ _ Hu Ha). by rewrite Hp.
Qed.

Lemma get_object_inactive request pk w u :
  users w !! pk = Some u →
  is_active u = false →
  UserProfileAPI.get_object request pk w = (Raise Http404, w).
Proof.
  intros Hu Ha. unfold UserProfileAPI.get_object. run.
  rewrite (proj2 (map_lookup_filter_None _ _ _)); [done|].
  right. intros u' Hu'. simpl. congruence.
Qed.

(** Every handler of the endpoint starts with [get_object]. *)
Lemma dispatch_inactive request pk w u :
  users w !! pk = Some u →
  is_active u = false →
  UserProfileAPI.dispatch request pk w = (Ok not_found_response, w).
Proof.
  intros Hu Ha. unfold UserProfileAPI.dispatch.
  destruct (request_method request);
    unfold UserProfileAPI.retrieve, UserProfileAPI.patch,
      UserProfileAPI.destroy, bind;
    by rewrite (get_object_inactive _ _ _ _ Hu Ha).
Qed.

Lemma update_email_only_flags u vd e :
  upd_email vd = Some e →
  upd_is_active vd = None →
  update (set_is_active false u) vd
    = mkUser (id u) (default (username u) (upd_username vd)) e (password u)
             false (is_admin u) (is_superuser u) (last_login u).
Proof.
  intros He Hf. unfold update. rewrite He, Hf.
  by destruct (upd_username vd).
Qed.

(** The whole run of a valid PATCH that carries the email key. *)
Lemma patch_with_email request pk w u vd e :
  users w !! pk = Some u →
  is_active u = true →
  has_object_permission request u = true →
  UserSerializer u (request_data request) w = Valid vd →
  upd_email vd = Some e →
  UserProfileAPI.patch request pk w =
    (Ok (mkResponse (message verification_sent) HTTP_200_OK),
     let u1 := set_is_active false u in
     let u2 := update u1 vd in
     with_log (fun l => l ++ [DbSave u2])
       (with_users (insert (id u2) u2)
          (on_commit (mkTask e (id u) "verification"
                             "Verification URL from AskTech.")
             (with_log (fun l => l ++ [DbSave u1])
                (with_users (insert (id u) u1) w))))).
Proof.
  intros Hu Ha Hp Hv He. unfold UserProfileAPI.patch, bind at 1.
  rewrite (get_object_active _ _ _ _ Hu Ha Hp). run.
  by rewrite Hv, He.
Qed.

(** The whole run of a valid PATCH without the email key. *)
Lemma patch_without_email request pk w u vd :
  users w !! pk = Some u →
  is_active u = true →
  has_object_permission request u = true →
  UserSerializer u (request_data request) w = Valid vd →
  upd_email vd = None →
  UserProfileAPI.patch request pk w =
    (Ok (mkResponse (message "Updated profile successfully.") HTTP_200_OK),
     with_log (fun l => l ++ [DbSave (update u vd)])
       (with_users (insert (id (update u vd)) (update u vd)) w)).
Proof.
  intros Hu Ha Hp Hv He. unfold UserProfileAPI.patch, bind at 1.
  rewrite (get_object_active _ _ _ _ Hu Ha Hp). run.
  by rewrite Hv, He.
Qed.

Lemma id_update u vd : id (update u vd) = id u.
Proof. unfold update. by repeat case_match. Qed.

Lemma on_commit_users t w : users (on_commit t w) = users w.
Proof. unfold on_commit. by case_match. Qed.

Lemma on_commit_log t w : log (on_commit t w) = log w.
Proof. unfold on_commit. by case_match. Qed.

(** What the PATCH with the email key leaves behind, column by column. *)
Lemma patch_with_email_world request pk w u vd e :
  users w !! pk = Some u →
  is_active u = true →
  has_object_permission request u = true →
  UserSerializer u (request_data request) w = Valid vd →
  upd_email vd = Some e →
  upd_is_active vd = None →
  ∃ w', UserProfileAPI.patch request pk w =
          (Ok (mkResponse (message verification_sent) HTTP_200_OK), w') ∧
        users w' =
          <[id u := mkUser (id u) (default (username u) (upd_username vd)) e
                           (password u) false (is_admin u) (is_superuser u)
                           (last_login u)]> (users w) ∧
        run_on_commit w' =
          run_on_commit (on_commit (mkTask e (id u) "verification"
                           "Verification URL from AskTech.") w) ∧
        broker w' =
          broker (on_commit (mkTask e (id u) "verification"
                    "Verification URL from AskTech.") w) ∧
        log w' = log w ++
          [DbSave (set_is_active false u);
           DbSave (mkUser (id u) (default (username u) (upd_username vd)) e
                          (password u) false (is_admin u) (is_superuser u)
                          (last_login u))].
Proof.
  intros Hu Ha Hp Hv He Hf.
  rewrite (patch_with_email _ _ _ _ _ _ Hu Ha Hp Hv He).
  eexists. split; [reflexivity|]. cbv zeta.
  rewrite (update_email_only_flags _ _ _ He Hf). simpl.
  rewrite on_commit_users, on_commit_log. simpl.
  rewrite insert_insert_eq, <- app_assoc. simpl.
  repeat split; unfold on_commit; simpl; by case_match.
Qed.

End profile_endpoint.

(** C4.  A valid PATCH by a permitted caller whose validated data carry the
    email key (and, the account flags being read-only in the serializer, no
    [is_active] key) answers 200 and leaves the user's row inactive, with
    the new email and every other supplied field saved and the remaining
    columns as before; one verification task for the new address is handed
    to [delay_on_commit]. *)
Theorem patch_email_deactivates `{Collaborators}
    (request : Request) (pk : Z) (w : World) (u : User) (vd : UserData)
    (e : string) :
  users w !! pk = Some u →
  is_active u = true →
  has_object_permission request u = true →
  UserSerializer u (request_data request) w = Valid vd →
  upd_email vd = Some e →
  upd_is_active vd = None →
  ∃ w' u',
    UserProfileAPI.patch request pk w =
      (Ok (mkResponse (message verification_sent) HTTP_200_OK), w') ∧
    users w' = <[id u := u']> (users w) ∧
    log w' = log w ++ [DbSave (set_is_active false u); DbSave u'] ∧
    is_active u' = false ∧
    email u' = e ∧
    username u' = default (username u) (upd_username vd) ∧
    (id u', password u', is_admin u', is_superuser u', last_login u')
      = (id u, password u, is_admin u, is_superuser u, last_login u) ∧
    (run_on_commit w', broker w') =
      let task := mkTask e (id u) "verification" "Verification URL from AskTech." in
      if in_atomic_block w
      then (run_on_commit w ++ [task], broker w)
      else (run_on_commit w, broker w ++ [task]).
Proof.
  intros Hu Ha Hp Hv He Hf.
  destruct (patch_with_email_world _ _ _ _ _ _ Hu Ha Hp Hv He Hf)
    as (w' & Hrun & Husers & Hroc & Hbr & Hlog).
  exists w'. eexists. split; [exact Hrun|]. split; [exact Husers|].
  split; [exact Hlog|]. simpl. repeat split.
  rewrite Hroc, Hbr. unfold on_commit. by destruct (in_atomic_block w).
Qed.

Lemma patch_email_deactivates_witness :
  ∃ w' u',
    UserProfileAPI.patch bob_moves 2 w0 =
      (Ok (mkResponse (message verification_sent) HTTP_200_OK), w') ∧
    users w' = <[2 := u']> (users w0) ∧
    log w' = [DbSave (set_is_active false bob); DbSave u'] ∧
    is_active u' = false ∧
    email u' = "bob@new.org" ∧
    username u' = "bobby" ∧
    (id u', password u', is_admin u', is_superuser u', last_login u')
      = (2, "pbkdf2$hunter2", false, false, None) ∧
    (run_on_commit w', broker w') =
      ([], [mkTask "bob@new.org" 2 "verification" "Verification URL from AskTech."]).
Proof.
  apply (patch_email_deactivates (H := spec_collaborators) bob_moves 2 w0 bob
           (mkUserData (Some "bobby") (Some "bob@new.org") None) "bob@new.org");
    reflexivity.
Defined.

(** C10.  The trigger of the deactivation is the presence of the email key
    in the validated data, not a change of value: with the key present and
    its value equal to the user's current email the row is still set
    inactive and a verification task is still queued; with the key absent
    the row stays active and nothing is queued. *)
Theorem patch_email_key_is_the_trigger `{Collaborators}
    (request : Request) (pk : Z) (w : World) (u : User) (vd : UserData) :
  users w !! pk = Some u →
  is_active u = true →
  has_object_permission request u = true →
  UserSerializer u (request_data request) w = Valid vd →
  upd_is_active vd = None →
  (upd_email vd = Some (email u) →
     ∃ w' u',
       UserProfileAPI.patch request pk w =
         (Ok (mkResponse (message verification_sent) HTTP_200_OK), w') ∧
       users w' = <[id u := u']> (users w) ∧
       is_active u' = false ∧
       email u' = email u ∧
       (run_on_commit w', broker w') =
         let task := mkTask (email u) (id u) "verification"
                            "Verification URL from AskTech." in
         if in_atomic_block w
         then (run_on_commit w ++ [task], broker w)
         else (run_on_commit w, broker w ++ [task])) ∧
  (upd_email vd = None →
     ∃ w' u',
       UserProfileAPI.patch request pk w =
         (Ok (mkResponse (message "Updated profile successfully.") HTTP_200_OK),
          w') ∧
       users w' = <[id u := u']> (users w) ∧
       is_active u' = true ∧
       email u' = email u ∧
       (run_on_commit w', broker w') = (run_on_commit w, broker w)).
Proof.
  intros Hu Ha Hp Hv Hf. split; intros He.
  - destruct (patch_with_email_world _ _ _ _ _ _ Hu Ha Hp Hv He Hf)
      as (w' & Hrun & Husers & Hroc & Hbr & _).
    exists w'. eexists. split; [exact Hrun|]. split; [exact Husers|].
    simpl. repeat split.
    rewrite Hroc, Hbr. unfold on_commit. by destruct (in_atomic_block w).
  - rewrite (patch_without_email _ _ _ _ _ Hu Ha Hp Hv He).
    eexists. exists (update u vd). split; [reflexivity|].
    rewrite id_update. simpl. unfold update. rewrite He, Hf.
    by destruct (upd_username vd).
Qed.

Lemma patch_email_key_is_the_trigger_witness :
  (∃ w' u',
     UserProfileAPI.patch bob_same_email 2 w0 =
       (Ok (mkResponse (message verification_sent) HTTP_200_OK), w') ∧
     users w' = <[2 := u']> (users w0) ∧
     is_active u' = false ∧
     email u' = "b@x.com" ∧
     (run_on_commit w', broker w') =
       ([], [mkTask "b@x.com" 2 "verification" "Verification URL from AskTech."])) ∧
  (∃ w' u',
     UserProfileAPI.patch bob_renames 2 w0 =
       (Ok (mkResponse (message "Updated profile successfully.") HTTP_200_OK),
        w') ∧
     users w' = <[2 := u']> (users w0) ∧
     is_active u' = true ∧
     email u' = "b@x.com" ∧
     (run_on_commit w', broker w') = ([], [])).
Proof.
  split.
  - apply (patch_email_key_is_the_trigger (H := spec_collaborators)
             bob_same_email 2 w0 bob (mkUserData None (Some "b@x.com") None));
      reflexivity.
  - apply (patch_email_key_is_the_trigger (H := spec_collaborators)
             bob_renames 2 w0 bob (mkUserData (Some "bobby") None None));
      reflexivity.
Defined.

(** ** Deleting the account *)

Section destroy.
Context `{Collaborators}.

Lemma profile_of_found u w p :
  profiles w !! id u = Some p → profile_of u w = (Ok p, w).
Proof. intros Hp. unfold profile_of. by rewrite Hp. Qed.

Lemma destroy_with_avatar request pk w u p :
  users w !! pk = Some u →
  is_active u = true →
  has_object_permission request u = true →
  profiles w !! id u = Some p →
  avatar p ≠ "" →
  UserProfileAPI.destroy request pk w =
    (Ok (mkResponse None HTTP_204_NO_CONTENT),
     with_log (fun l => l ++ [DbDelete (id u)])
       (with_profiles (delete (id u))
          (with_users (delete (id u))
             (with_log (fun l => l ++ [BucketDelete (avatar p)]) w)))).
Proof.
  intros Hu Ha Hperm Hp Hav.
  unfold UserProfileAPI.destroy, bind.
  rewrite (get_object_active _ _ _ _ Hu Ha Hperm).
  rewrite (profile_of_found _ _ _ Hp).
  rewrite (proj2 (String.eqb_neq _ _) Hav). simpl.
  rewrite (get_object_active _ _ _ _ Hu Ha Hperm).
  rewrite (profile_of_found _ _ _ Hp).
  unfold delete_object, modify.
  by rewrite (get_object_active request pk
                (with_log (fun l => l ++ [BucketDelete (avatar p)]) w) u
                Hu Ha Hperm).
Qed.

Lemma destroy_without_avatar request pk w u p :
  users w !! pk = Some u →
  is_active u = true →
  has_object_permission request u = true →
  profiles w !! id u = Some p →
  avatar p = "" →
  UserProfileAPI.destroy request pk w =
    (Ok (mkResponse None HTTP_204_NO_CONTENT),
     with_log (fun l => l ++ [DbDelete (id u)])
       (with_profiles (delete (id u))
          (with_users (delete (id u)) w))).
Proof.
  intros Hu Ha Hperm Hp Hav.
  unfold UserProfileAPI.destroy, bind.
  rewrite (get_object_active _ _ _ _ Hu Ha Hperm).
  rewrite (profile_of_found _ _ _ Hp).
  rewrite Hav. simpl. unfold ret.
  by rewrite (get_object_active _ _ _ _ Hu Ha Hperm).
Qed.

End destroy.

(** C7.  A delete request that passes the owner check on an active user
    with a profile answers 204 and removes the user row and, by cascade, the
    profile row.  When the profile has an avatar the writes the request adds
    are exactly one [delete_object] call for that avatar followed by the
    row deletion; when it has none, the row deletion alone. *)
Theorem destroy_purges_avatar_first `{Collaborators}
    (request : Request) (pk : Z) (w : World) (u : User) (p : Profile) :
  users w !! pk = Some u →
  is_active u = true →
  has_object_permission request u = true →
  profiles w !! id u = Some p →
  ∃ w',
    UserProfileAPI.destroy request pk w
      = (Ok (mkResponse None HTTP_204_NO_CONTENT), w') ∧
    users w' = delete (id u) (users w) ∧
    profiles w' = delete (id u) (profiles w) ∧
    (avatar p ≠ "" →
       log w' = log w ++ [BucketDelete (avatar p); DbDelete (id u)]) ∧
    (avatar p = "" → log w' = log w ++ [DbDelete (id u)]).
Proof.
  intros Hu Ha Hperm Hp.
  destruct (decide (avatar p = "")) as [Hav|Hav].
  - rewrite (destroy_without_avatar _ _ _ _ _ Hu Ha Hperm Hp Hav).
    eexists. split; [reflexivity|]. simpl. by repeat split.
  - rewrite (destroy_with_avatar _ _ _ _ _ Hu Ha Hperm Hp Hav).
    eexists. split; [reflexivity|]. simpl. repeat split; [|done].
    intros _. by rewrite <- app_assoc.
Qed.

Lemma destroy_purges_avatar_first_witness :
  (∃ w',
     UserProfileAPI.destroy bob_deletes 2 w0
       = (Ok (mkResponse None HTTP_204_NO_CONTENT), w') ∧
     users w' = delete 2 (users w0) ∧
     profiles w' = delete 2 (profiles w0) ∧
     log w' = [BucketDelete "avatars/bob.png"; DbDelete 2]) ∧
  (∃ w',
     UserProfileAPI.destroy carol_deletes 3 w0
       = (Ok (mkResponse None HTTP_204_NO_CONTENT), w') ∧
     users w' = delete 3 (users w0) ∧
     profiles w' = delete 3 (profiles w0) ∧
     log w' = [DbDelete 3]).
Proof.
  split.
  - destruct (destroy_purges_avatar_first (H := spec_collaborators)
                bob_deletes 2 w0 bob (mkProfile "avatars/bob.png" "")
                eq_refl eq_refl eq_refl eq_refl)
      as (w' & Hrun & Husers & Hprofiles & Hlog & _).
    exists w'. repeat split; [exact Hrun|exact Husers|exact Hprofiles|].
    apply Hlog. discriminate.
  - destruct (destroy_purges_avatar_first (H := spec_collaborators)
                carol_deletes 3 w0 carol (mkProfile "" "hi")
                eq_refl eq_refl eq_refl eq_refl)
      as (w' & Hrun & Husers & Hprofiles & _ & Hlog).
    exists w'. repeat split; [exact Hrun|exact Husers|exact Hprofiles|].
    by apply Hlog.
Defined.

(** C8.  While a user's row has [is_active = false], every request to the
    profile endpoint for that id, whatever its method, caller and body, is
    answered 404 and changes nothing, because [get_object] looks the id up
    among the active users only.  In particular, once a PATCH with the email
    key has deactivated a user, every further GET, PATCH or DELETE for that
    id, the owner's included, is answered 404. *)
Theorem inactive_profile_is_404 `{Collaborators}
    (request : Request) (pk : Z) (w : World) (u : User) :
  users w !! pk = Some u →
  (is_active u = false →
     UserProfileAPI.dispatch request pk w = (Ok not_found_response, w)) ∧
  (is_active u = true →
     id u = pk →
     ∀ patch_request vd e,
       has_object_permission patch_request u = true →
       UserSerializer u (request_data patch_request) w = Valid vd →
       upd_email vd = Some e →
       upd_is_active vd = None →
       UserProfileAPI.dispatch request pk
           (snd (UserProfileAPI.patch patch_request pk w))
         = (Ok not_found_response,
            snd (UserProfileAPI.patch patch_request pk w))).
Proof.
  intros Hu. split.
  - intros Ha. by apply (dispatch_inactive _ _ _ u).
  - intros Ha Hid patch_request vd e Hp Hv He Hf.
    destruct (patch_with_email_world _ _ _ _ _ _ Hu Ha Hp Hv He Hf)
      as (w' & Hrun & Husers & _).
    rewrite Hrun. simpl.
    eapply dispatch_inactive.
    + rewrite Husers, Hid. apply lookup_insert_eq.
    + reflexivity.
Qed.

Lemma inactive_profile_is_404_witness :
  UserProfileAPI.dispatch (mkRequest DELETE (Some alice) ∅) 1 w0
    = (Ok not_found_response, w0) ∧
  UserProfileAPI.dispatch (mkRequest GET (Some bob) ∅) 2
      (snd (UserProfileAPI.patch bob_moves 2 w0))
    = (Ok not_found_response, snd (UserProfileAPI.patch bob_moves 2 w0)).
Proof.
  split.
  - apply (inactive_profile_is_404 (H := spec_collaborators)
             (mkRequest DELETE (Some alice) ∅) 1 w0 alice); reflexivity.
  - apply (proj2 (inactive_profile_is_404 (H := spec_collaborators)
             (mkRequest GET (Some bob) ∅) 2 w0 bob eq_refl) eq_refl eq_refl
             bob_moves (mkUserData (Some "bobby") (Some "bob@new.org") None)
             "bob@new.org"); reflexivity.
Defined.

(** ** Registration *)

Lemma fresh_pk_unused (w : World) : users w !! fresh (dom (users w)) = None.
Proof. apply not_elem_of_dom, is_fresh. Qed.

(** C3.  With [register] as the specification describes it, every payload
    the register serializer accepts is answered 201 with the generic
    message; a new row, inactive, is added under an unused primary key and
    no other row changes; and exactly one verification task for the new
    user is handed to [delay_on_commit]: inside a transaction it waits among
    the on-commit hooks and reaches the task queue when the transaction
    commits, outside one the creating write is already committed and the
    task goes to the queue at once. *)
Theorem register_creates_inactive_user `{Collaborators}
    (request : Request) (w : World) (vd : RegisterData) :
  (∀ username email password,
     register username email password
       = spec_register make_password username email password) →
  UserRegisterSerializer (request_data request) w = Valid vd →
  let pk := fresh (dom (users w)) in
  let user := mkUser pk (vd_username vd) (vd_email vd)
                     (make_password (vd_password vd)) false false false None in
  let task := mkTask (vd_email vd) pk "verification"
                     "Verification URL from AskTech" in
  ∃ w',
    UserRegisterAPI.post request w = (Ok registered_response, w') ∧
    users w !! pk = None ∧
    users w' = <[pk := user]> (users w) ∧
    is_active user = false ∧
    (in_atomic_block w = true →
       run_on_commit w' = run_on_commit w ++ [task] ∧
       broker w' = broker w ∧
       broker (commit w') = broker w ++ run_on_commit w ++ [task]) ∧
    (in_atomic_block w = false →
       run_on_commit w' = run_on_commit w ∧
       broker w' = broker w ++ [task]).
Proof.
  intros Hreg Hv pk user task.
  unfold UserRegisterAPI.post. run. rewrite Hv, Hreg.
  unfold spec_register. simpl. fold pk. fold user. fold task.
  eexists. split; [reflexivity|].
  split; [apply fresh_pk_unused|].
  unfold on_commit. simpl.
  destruct (in_atomic_block w) eqn:Hat; simpl; rewrite ?Hat; simpl;
    repeat split; done.
Qed.

Lemma register_creates_inactive_user_witness :
  (∃ w',
     UserRegisterAPI.post dave_registers w0 = (Ok registered_response, w') ∧
     users w0 !! 4 = None ∧
     users w' =
       <[4 := mkUser 4 "dave" "d@x.com" "pbkdf2$Secret123!"
                     false false false None]> (users w0) ∧
     run_on_commit w' = [] ∧
     broker w' =
       [mkTask "d@x.com" 4 "verification" "Verification URL from AskTech"]) ∧
  (∃ w',
     UserRegisterAPI.post dave_registers w0_atomic
       = (Ok registered_response, w') ∧
     users w' =
       <[4 := mkUser 4 "dave" "d@x.com" "pbkdf2$Secret123!"
                     false false false None]> (users w0) ∧
     run_on_commit w' =
       [mkTask "d@x.com" 4 "verification" "Verification URL from AskTech"] ∧
     broker w' = [] ∧
     broker (commit w') =
       [mkTask "d@x.com" 4 "verification" "Verification URL from AskTech"]).
Proof.
  split.
  - destruct (register_creates_inactive_user (H := spec_collaborators)
                dave_registers w0
                (mkRegisterData "dave" "d@x.com" "Secret123!")
                (fun _ _ _ => eq_refl) eq_refl)
      as (w' & Hrun & Hfresh & Husers & _ & _ & Hauto).
    exists w'. destruct (Hauto eq_refl) as [Hroc Hbr]. by repeat split.
  - destruct (register_creates_inactive_user (H := spec_collaborators)
                dave_registers w0_atomic
                (mkRegisterData "dave" "d@x.com" "Secret123!")
                (fun _ _ _ => eq_refl) eq_refl)
      as (w' & Hrun & Hfresh & Husers & _ & Hatomic & _).
    exists w'. destruct (Hatomic eq_refl) as (Hroc & Hbr & Hcommit).
    by repeat split.
Defined.

(** ** Further properties of the views *)

(** X1.  A request whose payload the view's serializer rejects is answered
    400 with the serializer's errors under ["errors"], and the world is left
    exactly as it was: no row written, no task queued, no token
    blacklisted.  This holds for register, reset-password, block-token,
    resend-verification, change-password (for a logged-in caller) and the
    profile PATCH (once the target is found and the caller permitted). *)
Theorem rejected_payload_changes_nothing `{Collaborators} `{AccountSerializers}
    (request : Request) (w : World) (errors : Json) :
  (UserRegisterSerializer (request_data request) w = Invalid errors →
     UserRegisterAPI.post request w =
       (Ok (mkResponse (errors_body errors) HTTP_400_BAD_REQUEST), w)) ∧
  (ResetPasswordSerializer (request_data request) = Invalid errors →
     ResetPasswordAPI.post request w =
       (Ok (mkResponse (errors_body errors) HTTP_400_BAD_REQUEST), w)) ∧
  (TokenSerializer (request_data request) = Invalid errors →
     BlockTokenAPI.post request w =
       (Ok (mkResponse (errors_body errors) HTTP_400_BAD_REQUEST), w)) ∧
  (ResendVerificationEmailSerializer (request_data request) w = Invalid errors →
     ResendVerificationEmailAPI.post request w =
       (Ok (mkResponse (errors_body errors) HTTP_400_BAD_REQUEST), w)) ∧
  (∀ user,
     request_user request = Some user →
     ChangePasswordSerializer user (request_data request) = Invalid errors →
     ChangePasswordAPI.put request w =
       (Ok (mkResponse (errors_body errors) HTTP_400_BAD_REQUEST), w)) ∧
  (∀ pk u,
     users w !! pk = Some u →
     is_active u = true →
     has_object_permission request u = true →
     UserSerializer u (request_data request) w = Invalid errors →
     UserProfileAPI.patch request pk w =
       (Ok (mkResponse (errors_body errors) HTTP_400_BAD_REQUEST), w)).
Proof.
  repeat split.
  - intros Hv. unfold UserRegisterAPI.post. run. by rewrite Hv.
  - intros Hv. unfold ResetPasswordAPI.post. by rewrite Hv.
  - intros Hv. unfold BlockTokenAPI.post. by rewrite Hv.
  - intros Hv. unfold ResendVerificationEmailAPI.post. run. by rewrite Hv.
  - intros user Hu Hv. unfold ChangePasswordAPI.put. by rewrite Hu, Hv.
  - intros pk u Hu Ha Hp Hv. unfold UserProfileAPI.patch, bind at 1.
    rewrite (get_object_active _ _ _ _ Hu Ha Hp). run. by rewrite Hv.
Qed.

Lemma rejected_payload_changes_nothing_witness :
  UserRegisterAPI.post (anonymous [("username", "dave")]) w0 =
    (Ok (mkResponse (errors_body (required "email")) HTTP_400_BAD_REQUEST), w0) ∧
  ResetPasswordAPI.post (anonymous []) w0 =
    (Ok (mkResponse (errors_body (required "email")) HTTP_400_BAD_REQUEST), w0) ∧
  BlockTokenAPI.post (anonymous []) w0 =
    (Ok (mkResponse (errors_body (required "refresh")) HTTP_400_BAD_REQUEST), w0) ∧
  ResendVerificationEmailAPI.post (anonymous [("email", "b@x.com")]) w0 =
    (Ok (mkResponse
           (errors_body (JObj [("email", JStr "Invalid email address.")]))
           HTTP_400_BAD_REQUEST), w0) ∧
  ChangePasswordAPI.put bob_empty_patch w0 =
    (Ok (mkResponse (errors_body (required "new_password"))
                    HTTP_400_BAD_REQUEST), w0) ∧
  UserProfileAPI.patch (H := strict_collaborators) bob_blank_username 2 w0 =
    (Ok (mkResponse
           (errors_body (JObj [("username", JStr "This field may not be blank.")]))
           HTTP_400_BAD_REQUEST), w0).
Proof.
  split; [|split; [|split; [|split; [|split]]]].
  - apply (rejected_payload_changes_nothing (H := spec_collaborators)
             (H0 := spec_account_serializers)). reflexivity.
  - apply (rejected_payload_changes_nothing (H := spec_collaborators)
             (H0 := spec_account_serializers)). reflexivity.
  - apply (rejected_payload_changes_nothing (H := spec_collaborators)
             (H0 := spec_account_serializers)). reflexivity.
  - apply (rejected_payload_changes_nothing (H := spec_collaborators)
             (H0 := spec_account_serializers)). reflexivity.
  - apply (rejected_payload_changes_nothing (H := spec_collaborators)
             (H0 := spec_account_serializers) bob_empty_patch w0
             (required "new_password")) with (user := bob); reflexivity.
  - apply (rejected_payload_changes_nothing (H := strict_collaborators)
             (H0 := spec_account_serializers) bob_blank_username w0
             (JObj [("username", JStr "This field may not be blank.")]))
      with (u := bob); reflexivity.
Defined.

(** X2.  A resend request the serializer resolves to a user is answered 202
    and hands exactly one verification task to [delay_on_commit], addressed
    to the email stored on that user; no table is written, so the user's
    [is_active] is what it was.  The view does not look at [is_active]
    itself. *)
Theorem resend_queues_one_task `{AccountSerializers}
    (request : Request) (w : World) (user : User) :
  ResendVerificationEmailSerializer (request_data request) w = Valid user →
  ∃ w',
    ResendVerificationEmailAPI.post request w =
      (Ok (mkResponse
             (message "We`ve resent the activation link to your email.")
             HTTP_202_ACCEPTED), w') ∧
    users w' = users w ∧
    profiles w' = profiles w ∧
    log w' = log w ∧
    queued w' = S (queued w) ∧
    (run_on_commit w', broker w') =
      let task := mkTask (email user) (id user) "verification"
                         "Verification URL from AskTech" in
      if in_atomic_block w
      then (run_on_commit w ++ [task], broker w)
      else (run_on_commit w, broker w ++ [task]).
Proof.
  intros Hv. unfold ResendVerificationEmailAPI.post. run. rewrite Hv.
  eexists. split; [reflexivity|]. unfold on_commit, queued.
  destruct (in_atomic_block w); simpl; rewrite ?length_app; simpl;
    repeat split; lia.
Qed.

Lemma resend_queues_one_task_witness :
  ∃ w',
    ResendVerificationEmailAPI.post (anonymous [("email", "a@x.com")]) w0 =
      (Ok (mkResponse
             (message "We`ve resent the activation link to your email.")
             HTTP_202_ACCEPTED), w') ∧
    users w' = users w0 ∧
    profiles w' = profiles w0 ∧
    log w' = log w0 ∧
    queued w' = S (queued w0) ∧
    (run_on_commit w', broker w') =
      ([], [mkTask "a@x.com" 1 "verification" "Verification URL from AskTech"]).
Proof.
  apply (resend_queues_one_task (H := spec_account_serializers)
           (anonymous [("email", "a@x.com")]) w0 alice).
  reflexivity.
Defined.

(** X3.  Change-password for a logged-in caller with a valid payload answers
    200 and saves the request's user with the hash of the new password:
    that row keeps every other column of [request.user], every other row is
    untouched, and nothing is queued.  An anonymous caller is turned away
    with [NotAuthenticated] and nothing changes. *)
Theorem change_password_saves_request_user `{Collaborators} `{AccountSerializers}
    (request : Request) (w : World) :
  (∀ user new_password,
     request_user request = Some user →
     ChangePasswordSerializer user (request_data request) = Valid new_password →
     ∃ w' user',
       ChangePasswordAPI.put request w =
         (Ok (mkResponse (message "Your password changed successfully.")
                         HTTP_200_OK), w') ∧
       users w' = <[id user := user']> (users w) ∧
       password user' = make_password new_password ∧
       (id user', username user', email user', is_active user',
        is_admin user', is_superuser user', last_login user')
         = (id user, username user, email user, is_active user,
            is_admin user, is_superuser user, last_login user) ∧
       (∀ pk, pk ≠ id user → users w' !! pk = users w !! pk) ∧
       log w' = log w ++ [DbSave user'] ∧
       queued w' = queued w) ∧
  (request_user request = None →
     ChangePasswordAPI.put request w = (Raise NotAuthenticated, w)).
Proof.
  split.
  - intros user new_password Hu Hv. unfold ChangePasswordAPI.put.
    rewrite Hu, Hv. run. eexists. eexists. split; [reflexivity|].
    simpl. repeat split. intros pk Hne. by rewrite lookup_insert_ne.
  - intros Hu. unfold ChangePasswordAPI.put. by rewrite Hu.
Qed.

Lemma change_password_saves_request_user_witness :
  (∃ w' user',
     ChangePasswordAPI.put bob_new_password w0 =
       (Ok (mkResponse (message "Your password changed successfully.")
                       HTTP_200_OK), w') ∧
     users w' = <[2 := user']> (users w0) ∧
     password user' = "pbkdf2$Sesame1!" ∧
     (id user', username user', email user', is_active user',
      is_admin user', is_superuser user', last_login user')
       = (2, "bob", "b@x.com", true, false, false, None) ∧
     (∀ pk, pk ≠ 2 → users w' !! pk = users w0 !! pk) ∧
     log w' = [DbSave user'] ∧
     queued w' = queued w0) ∧
  ChangePasswordAPI.put new_password_request w0 = (Raise NotAuthenticated, w0).
Proof.
  split.
  - apply (proj1 (change_password_saves_request_user
                    (H := spec_collaborators) (H0 := spec_account_serializers)
                    bob_new_password w0) bob "Sesame1!"); reflexivity.
  - apply (change_password_saves_request_user
             (H := spec_collaborators) (H0 := spec_account_serializers)
             new_password_request w0). reflexivity.
Defined.

(** X4.  Set-password with a token the verifier resolves to a user and a
    valid payload answers 200 and saves that user with the hash of the new
    password and nothing else changed: in particular [is_active] is kept, so
    resetting the password of an unverified account does not activate it.
    Every other row is untouched and nothing is queued. *)
Theorem set_password_keeps_other_columns `{Collaborators}
    (request : Request) (token : string) (w : World) (u : User)
    (new_password : string) :
  get_user token w = IsUser u →
  SetPasswordSerializer (request_data request) = Valid new_password →
  ∃ w' u',
    SetPasswordAPI.post request token w =
      (Ok (mkResponse (message "Password changed successfully.") HTTP_200_OK),
       w') ∧
    users w' = <[id u := u']> (users w) ∧
    password u' = make_password new_password ∧
    (id u', username u', email u', is_active u', is_admin u',
     is_superuser u', last_login u')
      = (id u, username u, email u, is_active u, is_admin u,
         is_superuser u, last_login u) ∧
    (∀ pk, pk ≠ id u → users w' !! pk = users w !! pk) ∧
    log w' = log w ++ [DbSave u'] ∧
    queued w' = queued w.
Proof.
  intros Hu Hv. rewrite (set_password_accepted _ _ _ _ _ Hu Hv).
  eexists. eexists. split; [reflexivity|]. simpl. repeat split.
  intros pk Hne. by rewrite lookup_insert_ne.
Qed.

Lemma set_password_keeps_other_columns_witness :
  ∃ w' u',
    SetPasswordAPI.post new_password_request "tok-verify-alice" w0 =
      (Ok (mkResponse (message "Password changed successfully.") HTTP_200_OK),
       w') ∧
    users w' = <[1 := u']> (users w0) ∧
    password u' = "pbkdf2$Sesame1!" ∧
    (id u', username u', email u', is_active u', is_admin u',
     is_superuser u', last_login u')
      = (1, "alice", "a@x.com", false, false, false, None) ∧
    (∀ pk, pk ≠ 1 → users w' !! pk = users w0 !! pk) ∧
    log w' = [DbSave u'] ∧
    queued w' = queued w0.
Proof.
  apply (set_password_keeps_other_columns (H := spec_collaborators)
           new_password_request "tok-verify-alice" w0 alice "Sesame1!");
    reflexivity.
Defined.

Section more_profile_lemmas.
Context `{Collaborators}.

Lemma get_object_missing request pk w :
  users w !! pk = None →
  UserProfileAPI.get_object request pk w = (Raise Http404, w).
Proof.
  intros Hu. unfold UserProfileAPI.get_object. run.
  rewrite (proj2 (map_lookup_filter_None _ _ _)); [done|]. by left.
Qed.

Lemma get_object_denied request pk w u :
  users w !! pk = Some u →
  is_active u = true →
  has_object_permission request u = false →
  UserProfileAPI.get_object request pk w =
    (Raise (match request_user request with
            | None => NotAuthenticated
            | Some _ => PermissionDenied
            end), w).
Proof.
  intros Hu Ha Hp. unfold UserProfileAPI.get_object. run.
  rewrite (map_lookup_filter_Some_2 _ _ _ _ Hu Ha), Hp.
  by destruct (request_user request).
Qed.

Lemma dispatch_missing request pk w :
  users w !! pk = None →
  UserProfileAPI.dispatch request pk w = (Ok not_found_response, w).
Proof.
  intros Hu. unfold UserProfileAPI.dispatch.
  destruct (request_method request);
    unfold UserProfileAPI.retrieve, UserProfileAPI.patch,
      UserProfileAPI.destroy, bind;
    by rewrite (get_object_missing _ _ _ Hu).
Qed.

End more_profile_lemmas.

(** X5.  Reset-password catches [User.DoesNotExist] only: when two rows
    carry the requested email, [User.objects.get] raises
    [MultipleObjectsReturned], the exception leaves the handler, and nothing
    is queued or written. *)
Theorem reset_password_duplicate_email `{Collaborators}
    (request : Request) (w : World) (e : string) (pk1 pk2 : Z) (u1 u2 : User) :
  ResetPasswordSerializer (request_data request) = Valid e →
  users w !! pk1 = Some u1 →
  users w !! pk2 = Some u2 →
  pk1 ≠ pk2 →
  email u1 = e →
  email u2 = e →
  ResetPasswordAPI.post request w = (Raise MultipleObjectsReturned, w).
Proof.
  intros Hv H1 H2 Hne He1 He2.
  assert (Hin1 : (pk1, u1) ∈ filter_email e w).
  { apply elem_of_map_to_list. by apply map_lookup_filter_Some. }
  assert (Hin2 : (pk2, u2) ∈ filter_email e w).
  { apply elem_of_map_to_list. by apply map_lookup_filter_Some. }
  unfold ResetPasswordAPI.post, objects_get_email, bind. rewrite Hv.
  destruct (filter_email e w) as [|[k u] [|b l]]; [| |done].
  - by apply elem_of_nil in Hin1.
  - apply list_elem_of_singleton in Hin1, Hin2. congruence.
Qed.

Lemma reset_password_duplicate_email_witness :
  ResetPasswordAPI.post (anonymous [("email", "a@x.com")]) w_dup
    = (Raise MultipleObjectsReturned, w_dup).
Proof.
  apply (reset_password_duplicate_email (H := spec_collaborators)
           (anonymous [("email", "a@x.com")]) w_dup "a@x.com" 1 5 alice
           (mkUser 5 "alice2" "a@x.com" "pbkdf2$other" true false false None));
    (reflexivity || discriminate).
Defined.

Ltac extends_tac :=
  unfold extends, on_commit; simpl;
  repeat (case_match; simplify_eq; simpl in * );
  repeat split; try done; try set_solver;
  try (repeat apply prefix_app_r; done).

(** X7.  No handler takes back what the world already holds: after any
    request to verify, set-password, resend, reset-password, block-token,
    change-password or the profile endpoint, in any branch, the on-commit
    hooks, the task queue and the log of writes have their old contents as
    a prefix, the blacklist contains the old one, and the clock and the
    transaction state are untouched. *)
Theorem handlers_only_append `{Collaborators} `{AccountSerializers}
    (request : Request) (token : string) (pk : Z) (w : World) :
  extends w (snd (UserRegisterVerifyAPI.get request token w)) ∧
  extends w (snd (SetPasswordAPI.post request token w)) ∧
  extends w (snd (ResendVerificationEmailAPI.post request w)) ∧
  extends w (snd (ResetPasswordAPI.post request w)) ∧
  extends w (snd (BlockTokenAPI.post request w)) ∧
  extends w (snd (ChangePasswordAPI.put request w)) ∧
  extends w (snd (UserProfileAPI.dispatch request pk w)).
Proof.
  split; [|split; [|split; [|split; [|split; [|split]]]]].
  - unfold UserRegisterVerifyAPI.get. run. extends_tac.
  - unfold SetPasswordAPI.post. run. extends_tac.
  - unfold ResendVerificationEmailAPI.post. run. extends_tac.
  - unfold ResetPasswordAPI.post, objects_get_email. run. extends_tac.
  - unfold BlockTokenAPI.post. run. extends_tac.
  - unfold ChangePasswordAPI.put. run. extends_tac.
  - unfold UserProfileAPI.dispatch.
    destruct (request_method request);
      unfold UserProfileAPI.retrieve, UserProfileAPI.patch,
        UserProfileAPI.destroy, UserProfileAPI.get_object, profile_of;
      run; unfold modify; extends_tac.
Qed.

(** X8.  A request to the profile endpoint that fails the object permission
    check on an active user is answered 403 for a logged-in caller and 401
    for the anonymous one, whatever its method, and nothing happens: no row
    is saved or deleted, no object-store call is made, no task is queued. *)
Theorem denied_request_changes_nothing `{Collaborators}
    (request : Request) (pk : Z) (w : World) (u : User) :
  users w !! pk = Some u →
  is_active u = true →
  has_object_permission request u = false →
  UserProfileAPI.dispatch request pk w =
    (Ok (match request_user request with
         | None => unauthorized_response
         | Some _ => forbidden_response
         end), w).
Proof.
  intros Hu Ha Hp. unfold UserProfileAPI.dispatch.
  destruct (request_method request);
    unfold UserProfileAPI.retrieve, UserProfileAPI.patch,
      UserProfileAPI.destroy, bind;
    rewrite (get_object_denied _ _ _ _ Hu Ha Hp);
    by destruct (request_user request).
Qed.

Lemma denied_request_changes_nothing_witness :
  UserProfileAPI.dispatch carol_deletes_bob 2 w0 = (Ok forbidden_response, w0) ∧
  UserProfileAPI.dispatch nobody_deletes_bob 2 w0
    = (Ok unauthorized_response, w0).
Proof.
  split.
  - apply (denied_request_changes_nothing (H := spec_collaborators)
             carol_deletes_bob 2 w0 bob); reflexivity.
  - apply (denied_request_changes_nothing (H := spec_collaborators)
             nobody_deletes_bob 2 w0 bob); reflexivity.
Defined.

(** X9.  Deleting an account reads [user.profile] before anything else: for
    an active user without a profile row a permitted DELETE ends in
    [RelatedObjectDoesNotExist], which the exception handler does not turn
    into a response, and the user row stays, with no object-store call. *)
Theorem destroy_without_profile_raises `{Collaborators}
    (request : Request) (pk : Z) (w : World) (u : User) :
  request_method request = DELETE →
  users w !! pk = Some u →
  is_active u = true →
  has_object_permission request u = true →
  profiles w !! id u = None →
  UserProfileAPI.dispatch request pk w = (Raise RelatedObjectDoesNotExist, w).
Proof.
  intros Hm Hu Ha Hp Hprof. unfold UserProfileAPI.dispatch. rewrite Hm.
  unfold UserProfileAPI.destroy, bind.
  rewrite (get_object_active _ _ _ _ Hu Ha Hp).
  unfold profile_of. by rewrite Hprof.
Qed.

Lemma destroy_without_profile_raises_witness :
  UserProfileAPI.dispatch bob_deletes 2 w_no_profile
    = (Raise RelatedObjectDoesNotExist, w_no_profile).
Proof.
  apply (destroy_without_profile_raises (H := spec_collaborators)
           bob_deletes 2 w_no_profile bob); reflexivity.
Defined.

(** X10.  Once a DELETE has gone through, the account is gone from the
    endpoint: every later request for that id, a second DELETE included, is
    answered 404 and changes nothing, so the avatar is never asked to be
    deleted twice. *)
Theorem deleted_account_is_404 `{Collaborators}
    (request request' : Request) (pk : Z) (w : World) (u : User) (p : Profile) :
  users w !! pk = Some u →
  id u = pk →
  is_active u = true →
  has_object_permission request u = true →
  profiles w !! id u = Some p →
  UserProfileAPI.dispatch request' pk
      (snd (UserProfileAPI.destroy request pk w))
    = (Ok not_found_response, snd (UserProfileAPI.destroy request pk w)).
Proof.
  intros Hu Hid Ha Hp Hprof. apply dispatch_missing.
  destruct (decide (avatar p = "")) as [Hav|Hav].
  - rewrite (destroy_without_avatar _ _ _ _ _ Hu Ha Hp Hprof Hav). simpl.
    rewrite Hid. apply lookup_delete_eq.
  - rewrite (destroy_with_avatar _ _ _ _ _ Hu Ha Hp Hprof Hav). simpl.
    rewrite Hid. apply lookup_delete_eq.
Qed.

Lemma deleted_account_is_404_witness :
  UserProfileAPI.dispatch bob_deletes 2
      (snd (UserProfileAPI.destroy bob_deletes 2 w0))
    = (Ok not_found_response, snd (UserProfileAPI.destroy bob_deletes 2 w0)).
Proof.
  apply (deleted_account_is_404 (H := spec_collaborators)
           bob_deletes bob_deletes 2 w0 bob (mkProfile "avatars/bob.png" ""));
    reflexivity.
Defined.

(** X11.  A PATCH whose validated data are empty still answers 200 and still
    saves the user, but the save writes the row back as it was: the User
    table is unchanged, the account stays active, and nothing is queued. *)
Theorem empty_patch_rewrites_row `{Collaborators}
    (request : Request) (pk : Z) (w : World) (u : User) :
  users w !! pk = Some u →
  id u = pk →
  is_active u = true →
  has_object_permission request u = true →
  UserSerializer u (request_data request) w = Valid (mkUserData None None None) →
  ∃ w',
    UserProfileAPI.patch request pk w =
      (Ok (mkResponse (message "Updated profile successfully.") HTTP_200_OK),
       w') ∧
    users w' = users w ∧
    log w' = log w ++ [DbSave u] ∧
    run_on_commit w' = run_on_commit w ∧
    broker w' = broker w.
Proof.
  intros Hu Hid Ha Hp Hv.
  rewrite (patch_without_email _ _ _ _ _ Hu Ha Hp Hv eq_refl).
  eexists. split; [reflexivity|]. simpl. repeat split.
  unfold update. simpl. rewrite Hid. by apply insert_id.
Qed.

Lemma empty_patch_rewrites_row_witness :
  ∃ w',
    UserProfileAPI.patch bob_empty_patch 2 w0 =
      (Ok (mkResponse (message "Updated profile successfully.") HTTP_200_OK),
       w') ∧
    users w' = users w0 ∧
    log w' = log w0 ++ [DbSave bob] ∧
    run_on_commit w' = run_on_commit w0 ∧
    broker w' = broker w0.
Proof.
  apply (empty_patch_rewrites_row (H := spec_collaborators)
           bob_empty_patch 2 w0 bob); reflexivity.
Defined.

(** X12.  GET on the profile endpoint is read-only: whatever the caller, the
    id and the world, the world after the request is the world before it;
    and for an active user and a permitted caller the answer is 200 with the
    representation of the stored row. *)
Theorem retrieve_is_read_only `{Collaborators}
    (request : Request) (pk : Z) (w : World) :
  request_method request = GET →
  snd (UserProfileAPI.dispatch request pk w) = w ∧
  ∀ u,
    users w !! pk = Some u →
    is_active u = true →
    has_object_permission request u = true →
    UserProfileAPI.dispatch request pk w =
      (Ok (mkResponse (Some (to_representation u w)) HTTP_200_OK), w).
Proof.
  intros Hm. unfold UserProfileAPI.dispatch. rewrite Hm. split.
  - unfold UserProfileAPI.retrieve, UserProfileAPI.get_object. run.
    repeat (case_match; simplify_eq; simpl in * ); done.
  - intros u Hu Ha Hp. unfold UserProfileAPI.retrieve, bind.
    by rewrite (get_object_active _ _ _ _ Hu Ha Hp).
Qed.

Lemma retrieve_is_read_only_witness :
  snd (UserProfileAPI.dispatch (mkRequest GET None ∅) 2 w0) = w0 ∧
  UserProfileAPI.dispatch (mkRequest GET None ∅) 2 w0 =
    (Ok (mkResponse
           (Some (JObj [("username", JStr "bob"); ("email", JStr "b@x.com")]))
           HTTP_200_OK), w0).
Proof.
  destruct (retrieve_is_read_only (H := spec_collaborators)
              (mkRequest GET None ∅) 2 w0 eq_refl) as [Hsame Hok].
  split; [exact Hsame|]. apply (Hok bob); reflexivity.
Defined.

(** X13.  Email change and verification compose into a round trip.  After a
    PATCH with the email key has deactivated the user, a token the verifier
    resolves to the stored row is answered 200 by the verify endpoint, the
    row is active again and carries the new email, and a GET for the id is
    answered 200 again. *)
Theorem email_change_then_verify `{Collaborators}
    (patch_request verify_request get_request : Request) (token : string)
    (pk : Z) (w : World) (u : User) (vd : UserData) (e : string) :
  users w !! pk = Some u →
  id u = pk →
  is_active u = true →
  has_object_permission patch_request u = true →
  UserSerializer u (request_data patch_request) w = Valid vd →
  upd_email vd = Some e →
  upd_is_active vd = None →
  (∀ row,
     users (snd (UserProfileAPI.patch patch_request pk w)) !! pk = Some row →
     get_user token (snd (UserProfileAPI.patch patch_request pk w))
       = IsUser row) →
  request_method get_request = GET →
  (∀ row, id row = pk → has_object_permission get_request row = true) →
  ∃ w1 w2 u',
    UserProfileAPI.patch patch_request pk w =
      (Ok (mkResponse (message verification_sent) HTTP_200_OK), w1) ∧
    UserRegisterVerifyAPI.get verify_request token w1 =
      (Ok (mkResponse (message "Account activated successfully.") HTTP_200_OK),
       w2) ∧
    users w2 !! pk = Some u' ∧
    is_active u' = true ∧
    email u' = e ∧
    UserProfileAPI.dispatch get_request pk w2 =
      (Ok (mkResponse (Some (to_representation u' w2)) HTTP_200_OK), w2).
Proof.
  intros Hu Hid Ha Hp Hv He Hf Htok Hm Hget. subst pk.
  destruct (patch_with_email_world _ _ _ _ _ _ Hu Ha Hp Hv He Hf)
    as (w1 & Hrun & Husers & _).
  pose (row := mkUser (id u) (default (username u) (upd_username vd)) e
                      (password u) false (is_admin u) (is_superuser u)
                      (last_login u)).
  assert (Hrow : users w1 !! id u = Some row).
  { rewrite Husers. apply lookup_insert_eq. }
  assert (Hres : get_user token w1 = IsUser row).
  { rewrite Hrun in Htok. by apply Htok. }
  pose (w2 := with_log (fun l => l ++ [DbSave (set_is_active true row)])
                (with_users (insert (id u) (set_is_active true row)) w1)).
  assert (Hrow2 : users w2 !! id u = Some (set_is_active true row)).
  { simpl. apply lookup_insert_eq. }
  assert (Hperm : has_object_permission get_request (set_is_active true row)
                  = true) by (by apply Hget).
  exists w1, w2, (set_is_active true row).
  split; [exact Hrun|].
  split.
  { unfold UserRegisterVerifyAPI.get. run. rewrite Hres. reflexivity. }
  split; [exact Hrow2|]. split; [done|]. split; [done|].
  unfold UserProfileAPI.dispatch. rewrite Hm.
  unfold UserProfileAPI.retrieve, bind.
  by rewrite (get_object_active get_request (id u) w2
                (set_is_active true row) Hrow2 eq_refl Hperm).
Qed.

Lemma email_change_then_verify_witness :
  ∃ w1 w2 u',
    UserProfileAPI.patch bob_moves 2 w0 =
      (Ok (mkResponse (message verification_sent) HTTP_200_OK), w1) ∧
    UserRegisterVerifyAPI.get (anonymous []) "tok-verify-bob" w1 =
      (Ok (mkResponse (message "Account activated successfully.") HTTP_200_OK),
       w2) ∧
    users w2 !! 2 = Some u' ∧
    is_active u' = true ∧
    email u' = "bob@new.org" ∧
    UserProfileAPI.dispatch (mkRequest GET None ∅) 2 w2 =
      (Ok (mkResponse (Some (to_representation u' w2)) HTTP_200_OK), w2).
Proof.
  apply (email_change_then_verify (H := spec_collaborators)
           bob_moves (anonymous []) (mkRequest GET None ∅) "tok-verify-bob"
           2 w0 bob (mkUserData (Some "bobby") (Some "bob@new.org") None)
           "bob@new.org"); try reflexivity.
  intros row Hrow. vm_compute in Hrow. injection Hrow as <-.
  reflexivity.
Defined.

(** X14.  Reset-password, resend-verification and block-token never write
    the User or the Profile table, whatever the request and in whichever
    branch they end (an exception included), and each of reset-password and
    resend-verification queues at most one task per request. *)
Theorem email_and_token_views_write_no_row `{Collaborators} `{AccountSerializers}
    (request : Request) (w : World) :
  (users (snd (ResetPasswordAPI.post request w)) = users w ∧
   profiles (snd (ResetPasswordAPI.post request w)) = profiles w ∧
   queued (snd (ResetPasswordAPI.post request w)) ≤ S (queued w))%nat ∧
  (users (snd (ResendVerificationEmailAPI.post request w)) = users w ∧
   profiles (snd (ResendVerificationEmailAPI.post request w)) = profiles w ∧
   queued (snd (ResendVerificationEmailAPI.post request w)) ≤ S (queued w))%nat ∧
  (users (snd (BlockTokenAPI.post request w)) = users w ∧
   profiles (snd (BlockTokenAPI.post request w)) = profiles w ∧
   queued (snd (BlockTokenAPI.post request w)) = queued w).
Proof.
  split; [|split].
  - unfold ResetPasswordAPI.post, objects_get_email. run.
    unfold on_commit, queued.
    repeat (case_match; simplify_eq; simpl in * ); repeat split;
      rewrite ?length_app; simpl; lia.
  - unfold ResendVerificationEmailAPI.post. run. unfold on_commit, queued.
    repeat (case_match; simplify_eq; simpl in * ); repeat split;
      rewrite ?length_app; simpl; lia.
  - unfold BlockTokenAPI.post. run. unfold queued.
    repeat (case_match; simplify_eq; simpl in * ); by repeat split.
Qed.
